(** * pkg/plugin/twinmaker/utils.go: composite keys, external-id lookup, policy

    A shallow embedding of [GetEntityPropertyReferenceKey],
    [GetComponentHistoryWithLookup] and [LoadPolicy], with the Go features
    they rely on written out: nil pointers and the run-time panic their
    dereference raises, [for ... range] loops with [break], the unspecified
    iteration order of Go maps, and calls to the TwinMaker client. *)

From Stdlib Require Import String Ascii List Bool Arith Lia Permutation.
Import ListNotations.
Local Open Scope list_scope.
Local Open Scope string_scope.

(** ** Go run-time model *)

Module Go.

(** A Go function either returns or panics; the only panic these functions
    can raise is a nil pointer dereference. *)
Inductive outcome (A : Type) : Type :=
| Returned (a : A)
| Panicked.
Arguments Returned {A} a.
Arguments Panicked {A}.

Definition bind {A B} (m : outcome A) (k : A -> outcome B) : outcome B :=
  match m with
  | Returned a => k a
  | Panicked => Panicked
  end.

(** A pointer [*T] is [option T], [nil] being [None]; [*p] and [p.f]
    panic on [nil]. *)
Definition deref {A} (p : option A) : outcome A :=
  match p with
  | Some a => Returned a
  | None => Panicked
  end.

(** What the body of a [for] loop asks for when it ends: the next
    iteration, or [break]. *)
Inductive control : Type := Next | Break.

(** [for _, x := range xs { body }] over the loop's live variables [s]. *)
Fixpoint range {E S} (body : E -> S -> outcome (S * control))
         (xs : list E) (s : S) : outcome S :=
  match xs with
  | [] => Returned s
  | x :: xs' =>
      match body x s with
      | Panicked => Panicked
      | Returned (s', Break) => Returned s'
      | Returned (s', Next) => range body xs' s'
      end
  end.

(** A [map[string]V] as a [range] statement sees it: its entries in the
    order in which this execution visits them.  Go leaves that order
    unspecified, so two lists with the same entries in a different order
    stand for the same map on two different runs. *)
Definition map (V : Type) : Type := list (string * V).

(** An [error] value, observed through its [Error()] method. *)
Record error : Type := New { Error : string }.

End Go.

Import Go.

Declare Scope go_scope.
Delimit Scope go_scope with go.
Notation "x <- m ;; k" := (Go.bind m (fun x => k))
  (at level 100, m at next level, right associativity) : go_scope.
Local Open Scope go_scope.

(** ** Types of github.com/aws/aws-sdk-go/service/iottwinmaker

    The package is imported, not part of this repository; each record holds
    the fields utils.go reads or writes, with the SDK's pointer types, and
    the SDK's maps ([ExternalIdProperty], [Components], [Properties]). *)

Module EntityPropertyReference.
Record t : Type := Build {
  ComponentName : option string;
  EntityId : option string;
  ExternalIdProperty : Go.map (option string);
  PropertyName : option string
}.
End EntityPropertyReference.

Module PropertyValueHistory.
(** [V] stands for [iottwinmaker.PropertyValue], which utils.go only
    copies. *)
Record t (V : Type) : Type := Build {
  EntityPropertyReference : option EntityPropertyReference.t;
  Values : list (option V)
}.
Arguments Build {V}.
Arguments EntityPropertyReference {V}.
Arguments Values {V}.
End PropertyValueHistory.

Module GetPropertyValueHistoryOutput.
Record t (V : Type) : Type := Build {
  PropertyValues : list (option (PropertyValueHistory.t V))
}.
Arguments Build {V}.
Arguments PropertyValues {V}.
End GetPropertyValueHistoryOutput.

Module EntitySummary.
Record t : Type := Build {
  EntityId : option string;
  EntityName : option string
}.
End EntitySummary.

Module ListEntitiesOutput.
Record t : Type := Build {
  EntitySummaries : list (option EntitySummary.t)
}.
End ListEntitiesOutput.

Module PropertyDefinitionResponse.
Record t : Type := Build {
  IsExternalId : option bool
}.
End PropertyDefinitionResponse.

Module DataValue.
Record t : Type := Build {
  StringValue : option string
}.
End DataValue.

Module PropertyResponse.
(** [Definition_] is the SDK's field [Definition]. *)
Record t : Type := Build {
  Definition_ : option PropertyDefinitionResponse.t;
  Value : option DataValue.t
}.
End PropertyResponse.

Module ComponentResponse.
Record t : Type := Build {
  ComponentName : option string;
  ComponentTypeId : option string;
  Properties : Go.map (option PropertyResponse.t)
}.
End ComponentResponse.

Module GetEntityOutput.
Record t : Type := Build {
  Components : Go.map (option ComponentResponse.t)
}.
End GetEntityOutput.

Module GetWorkspaceOutput.
Record t : Type := Build {
  Arn : option string;
  S3Location : option string;
  WorkspaceId : option string
}.
End GetWorkspaceOutput.

(** ** Types of pkg/models and of grafana-plugin-sdk-go/data

    Both packages are declared outside utils.go.  A query holds the four
    fields the resolver assigns and, in [Rest], everything else it carries
    (workspace, time range, ...), which the resolver never touches. *)

Module TwinMakerListEntitiesFilter.
Record t : Type := Build {
  ExternalId : string
}.
End TwinMakerListEntitiesFilter.

Module TwinMakerQuery.
Record t (R : Type) : Type := Build {
  EntityId : string;
  Properties : list (option string);
  ComponentTypeId : string;
  ListEntitiesFilter : list TwinMakerListEntitiesFilter.t;
  Rest : R
}.
Arguments Build {R}.
Arguments EntityId {R}.
Arguments Properties {R}.
Arguments ComponentTypeId {R}.
Arguments ListEntitiesFilter {R}.
Arguments Rest {R}.
End TwinMakerQuery.

Module Notice.
Inductive NoticeSeverity : Type :=
| NoticeSeverityInfo
| NoticeSeverityWarning
| NoticeSeverityError.

Record t : Type := Build {
  Severity : NoticeSeverity;
  Text : string
}.
End Notice.

(** ** Identifier composer *)

(** Lines 137-142 and 178-183: the same loop in both functions.
<<
    externalId := ""
    for _, val := range ....ExternalIdProperty { externalId = *val; break }
>> *)
Definition extractExternalId (m : Go.map (option string)) : outcome string :=
  range (fun (entry : string * option string) (externalId : string) =>
           v <- deref (snd entry) ;;
           Returned (v, Break))
        m "".

(** Lines 136-156. *)
Definition GetEntityPropertyReferenceKey
    (entityPropertyReference : option EntityPropertyReference.t) : outcome string :=
  r <- deref entityPropertyReference ;;
  externalId <- extractExternalId (EntityPropertyReference.ExternalIdProperty r) ;;
  let refKey := "" in
  let refKey :=
    match EntityPropertyReference.EntityId r with
    | Some entityId => (refKey ++ entityId) ++ "_"
    | None => refKey
    end in
  let refKey :=
    match EntityPropertyReference.ComponentName r with
    | Some componentName => (refKey ++ componentName) ++ "_"
    | None => refKey
    end in
  let refKey := (refKey ++ externalId) ++ "_" in
  let refKey :=
    match EntityPropertyReference.PropertyName r with
    | Some propertyName => refKey ++ propertyName
    | None => refKey
    end in
  Returned refKey.


(** ** Reference resolver *)

(** Lines 158-162. *)
Module PropertyReference.
Record t (V : Type) : Type := Build {
  values : list (option V);
  entityPropertyReference : option EntityPropertyReference.t;
  entityName : option string
}.
Arguments Build {V}.
Arguments values {V}.
Arguments entityPropertyReference {V}.
Arguments entityName {V}.
End PropertyReference.

(** Lines 218-232: the scan of the entity's components for the name of the
    one that carries the external id. *)
Definition scanProperties (externalId : string)
    (component : ComponentResponse.t)
    (properties : Go.map (option PropertyResponse.t))
    (componentName : string) : outcome string :=
  range (fun (entry : string * option PropertyResponse.t) (componentName : string) =>
           property <- deref (snd entry) ;;
           definition <- deref (PropertyResponse.Definition_ property) ;;
           isExternalId <- deref (PropertyDefinitionResponse.IsExternalId definition) ;;
           if isExternalId then
             value <- deref (PropertyResponse.Value property) ;;
             stringValue <- deref (DataValue.StringValue value) ;;
             if stringValue =? externalId then
               name <- deref (ComponentResponse.ComponentName component) ;;
               Returned (name, Break)
             else Returned (componentName, Next)
           else Returned (componentName, Next))
        properties componentName.

Definition scanComponents (componentTypeId externalId : string)
    (components : Go.map (option ComponentResponse.t)) : outcome string :=
  range (fun (entry : string * option ComponentResponse.t) (componentName : string) =>
           component <- deref (snd entry) ;;
           typeId <- deref (ComponentResponse.ComponentTypeId component) ;;
           if typeId =? componentTypeId then
             componentName <- scanProperties externalId component
                                (ComponentResponse.Properties component)
                                componentName ;;
             Returned (componentName, Break)
           else Returned (componentName, Next))
        components "".

(** The calls the resolver makes on its client, with the query each one
    was given. *)
Inductive call (R : Type) : Type :=
| CallGetPropertyValueHistory (query : TwinMakerQuery.t R)
| CallListEntities (query : TwinMakerQuery.t R)
| CallGetEntity (query : TwinMakerQuery.t R).
Arguments CallGetPropertyValueHistory {R}.
Arguments CallListEntities {R}.
Arguments CallGetEntity {R}.

(** The [TwinMakerClient] interface behind [s.client], declared outside
    utils.go.  A method is a remote call: it takes the state [W] of the service
    (and of the context it is called under) and returns Go's pair of a
    result pointer and an error, either of which may be nil. *)
Record TwinMakerClient (W V R : Type) : Type := {
  GetPropertyValueHistory :
    TwinMakerQuery.t R -> W ->
    (option (GetPropertyValueHistoryOutput.t V) * option error) * W;
  ListEntities :
    TwinMakerQuery.t R -> W -> (option ListEntitiesOutput.t * option error) * W;
  GetEntity :
    TwinMakerQuery.t R -> W -> (option GetEntityOutput.t * option error) * W
}.
Arguments GetPropertyValueHistory {W V R}.
Arguments ListEntities {W V R}.
Arguments GetEntity {W V R}.

Record twinMakerHandler (W V R : Type) : Type := {
  client : TwinMakerClient W V R
}.
Arguments client {W V R}.

Section Resolver.

Context {W V R : Type}.

(** The service state and the calls made so far, oldest first. *)
Definition world : Type := W * list (call R).

(** A computation that calls the client and may panic. *)
Definition M (A : Type) : Type := world -> outcome (A * world).

Definition ret {A} (a : A) : M A := fun w => Returned (a, w).

Definition bindM {A B} (m : M A) (k : A -> M B) : M B :=
  fun w =>
    match m w with
    | Returned (a, w') => k a w'
    | Panicked => Panicked
    end.

Definition lift {A} (o : outcome A) : M A :=
  fun w =>
    match o with
    | Returned a => Returned (a, w)
    | Panicked => Panicked
    end.

Definition invoke {A} (method : TwinMakerQuery.t R -> W -> A * W)
    (event : TwinMakerQuery.t R -> call R) (query : TwinMakerQuery.t R) : M A :=
  fun w =>
    let (a, st) := method query (fst w) in
    Returned (a, (st, (snd w ++ [event query])%list)).

(** [for _, x := range xs { body }] with client calls in the body and no
    [break]. *)
Fixpoint rangeM {E S} (body : E -> S -> M S) (xs : list E) (s : S) : M S :=
  match xs with
  | [] => ret s
  | x :: xs' => bindM (body x s) (rangeM body xs')
  end.

End Resolver.

Arguments world : clear implicits.
Arguments M : clear implicits.

Notation "x <~ m ;; k" := (bindM m (fun x => k))
  (at level 100, m at next level, right associativity) : go_scope.

Definition warning (err : error) : Notice.t :=
  Notice.Build Notice.NoticeSeverityWarning (Error err).

(** Go's [append(failures, notice)] under [if err != nil]. *)
Definition appendFailure (failures : list Notice.t) (err : option error)
  : list Notice.t :=
  match err with
  | Some e => (failures ++ [warning e])%list
  | None => failures
  end.

Section Lookup.

Context {W V R : Type}.
Variable s : twinMakerHandler W V R.

(** The variables of [GetComponentHistoryWithLookup] that the loop over
    the property values assigns. *)
Record locals : Type := Locals {
  query : TwinMakerQuery.t R;
  propertyReferences : list (PropertyReference.t V);
  failures : list Notice.t
}.

(** Lines 186-194: the query as [ListEntities] receives it. *)
Definition listEntitiesQuery (query : TwinMakerQuery.t R) (externalId : string)
  : TwinMakerQuery.t R :=
  TwinMakerQuery.Build "" [] ""
    [TwinMakerListEntitiesFilter.Build externalId]
    (TwinMakerQuery.Rest query).

(** Line 209: [query.EntityId = *entityId]. *)
Definition withEntityId (query : TwinMakerQuery.t R) (entityId : string)
  : TwinMakerQuery.t R :=
  TwinMakerQuery.Build entityId
    (TwinMakerQuery.Properties query)
    (TwinMakerQuery.ComponentTypeId query)
    (TwinMakerQuery.ListEntitiesFilter query)
    (TwinMakerQuery.Rest query).

(** Lines 178-245: the body of the loop over [result.PropertyValues]. *)
Definition lookupBody (componentTypeId : string)
    (propertyValue : option (PropertyValueHistory.t V)) (l : locals)
  : M W R locals :=
  pv <~ lift (deref propertyValue) ;;
  ref <~ lift (deref (PropertyValueHistory.EntityPropertyReference pv)) ;;
  externalId <~ lift (extractExternalId
                        (EntityPropertyReference.ExternalIdProperty ref)) ;;
  let query := listEntitiesQuery (query l) externalId in
  r <~ invoke (ListEntities (client s)) CallListEntities query ;;
  let (le, err) := (r : option ListEntitiesOutput.t * option error) in
  let failures := appendFailure (failures l) err in
  le <~ lift (deref le) ;;
  match ListEntitiesOutput.EntitySummaries le with
  | [] => ret (Locals query (propertyReferences l) failures)
  | first :: _ =>
      summary <~ lift (deref first) ;;
      let entityId := EntitySummary.EntityId summary in
      let entityName := EntitySummary.EntityName summary in
      id <~ lift (deref entityId) ;;
      let query := withEntityId query id in
      r <~ invoke (GetEntity (client s)) CallGetEntity query ;;
      let (e, err) := (r : option GetEntityOutput.t * option error) in
      let failures := appendFailure failures err in
      e <~ lift (deref e) ;;
      componentName <~ lift (scanComponents componentTypeId externalId
                               (GetEntityOutput.Components e)) ;;
      let pr :=
        PropertyReference.Build
          (PropertyValueHistory.Values pv)
          (Some (EntityPropertyReference.Build
                   (Some componentName)
                   entityId
                   (EntityPropertyReference.ExternalIdProperty ref)
                   (EntityPropertyReference.PropertyName ref)))
          entityName in
      ret (Locals query (propertyReferences l ++ [pr])%list failures)
  end.

(** Lines 164-250.  [l] holds [query], [propertyReferences] and
    [failures], the last two created empty at lines 165-166. *)
Definition GetComponentHistoryWithLookup (query : TwinMakerQuery.t R)
  : M W R (list (PropertyReference.t V) * list Notice.t * option error) :=
  let l := Locals query [] [] in
  let componentTypeId := TwinMakerQuery.ComponentTypeId query in
  r <~ invoke (GetPropertyValueHistory (client s))
         CallGetPropertyValueHistory query ;;
  let (result, err) :=
    (r : option (GetPropertyValueHistoryOutput.t V) * option error) in
  match err with
  | Some _ => ret (propertyReferences l, failures l, err)
  | None =>
      result <~ lift (deref result) ;;
      let propertyValues := GetPropertyValueHistoryOutput.PropertyValues result in
      if (0 <? length propertyValues)%nat then
        l <~ rangeM (lookupBody componentTypeId) propertyValues l ;;
        ret (propertyReferences l, failures l, None)
      else ret (propertyReferences l, failures l, None)
  end.

End Lookup.

Arguments locals : clear implicits.
Arguments Locals {V R}.
Arguments query {V R}.
Arguments propertyReferences {V R}.
Arguments failures {V R}.

(** ** Access-policy document *)

(** The policy template is a Go raw string full of double quotes; it is
    written here with a single quote for each of them ([requote] puts them
    back), every other character, tabs and line ends included, being that
    of lines 34-94. *)
Definition requote (text : string) : string :=
  string_of_list_ascii
    (List.map (fun c : ascii => if (c =? "'")%char then ascii_of_nat 34 else c)
              (list_ascii_of_string text)).

Definition policyTemplate : string := Eval vm_compute in requote
"{
		'Version': '2012-10-17',
		'Statement': [
			{
				'Action': [
					'iottwinmaker:ListWorkspaces'
				],
				'Resource': [
					'*'
				],
				'Effect': 'Allow'
			},
			{
				'Action': [
					'iottwinmaker:Get*',
					'iottwinmaker:List*'
				],
				'Resource': [
					'{{.WorkspaceArn}}',
					'{{.WorkspaceArn}}/*'
				],
				'Effect': 'Allow'
			},
			{
				'Effect': 'Allow',
				'Action': [
				  'kinesisvideo:GetDataEndpoint',
				  'kinesisvideo:GetHLSStreamingSessionURL'
				],
				'Resource': '*'
			},
			{
				'Effect': 'Allow',
				'Action': [
				  'iotsitewise:GetAssetPropertyValue',
				  'iotsitewise:GetInterpolatedAssetPropertyValues'
				],
				'Resource': '*'
			},
			{
				 'Effect': 'Allow',
				 'Action': [
				  'iotsitewise:BatchPutAssetPropertyValue'
				],
				'Resource': '*',
				'Condition': {
				  'StringLike': {
					'aws:ResourceTag/EdgeConnectorForKVS': '*{{.WorkspaceId}}*'
				  } 
				}
			},
			{
				'Effect': 'Allow',
				'Action': ['s3:GetObject'],
				'Resource': [
					'{{.S3BucketArn}}', 
					'{{.S3BucketArn}}/*'
				]
			}
		]
	}".

(** [template.Must]: the parsed template, or a panic on a parse error. *)
Definition Must {T} (parsed : T + error) : outcome T :=
  match parsed with
  | inl t => Returned t
  | inr _ => Panicked
  end.

Section Policy.

(** encoding/json and text/template belong to Go's standard library; the
    three functions [LoadPolicy] calls are taken as they are specified:
    [Compact] is [json.Compact] into an empty buffer (the compacted text,
    or the syntax error), [Parse] is [template.New("policy").Parse] and
    [Execute] is the template's [Execute] method on an empty [strings.Builder] (what
    was written, and the error if any). *)
Variable Template : Type.
Variable Compact : string -> string + error.
Variable Parse : string -> Template + error.
Variable Execute : Template -> Go.map (option string) -> string * option error.

(** Lines 27-112. *)
Definition LoadPolicy (workspace : option GetWorkspaceOutput.t)
  : outcome (string * option error) :=
  workspace <- deref workspace ;;
  let data : Go.map (option string) :=
    [ ("S3BucketArn", GetWorkspaceOutput.S3Location workspace);
      ("WorkspaceArn", GetWorkspaceOutput.Arn workspace);
      ("WorkspaceId", GetWorkspaceOutput.WorkspaceId workspace) ] in
  match Compact policyTemplate with
  | inr err => Returned ("", Some err)
  | inl policyTemplate =>
      t <- Must (Parse policyTemplate) ;;
      let (builder, err) := Execute t data in
      match err with
      | Some _ => Returned ("", err)
      | None => Returned (builder, err)
      end
  end.

End Policy.

(** ** Definitions that follow the specification's words *)

(** Section 4.1: "concatenating, in fixed order, entity id + separator,
    component name + separator, the first external-identifier value +
    separator, and property name". *)
Definition compositeKey (entityId componentName externalId propertyName : string)
  : string :=
  entityId ++ "_" ++ componentName ++ "_" ++ externalId ++ "_" ++ propertyName.

(** A reference whose entity id, component name, external id and property
    name are all set, the external id being the value of the entry its
    mapping yields first. *)
Definition hasFields (r : EntityPropertyReference.t)
    (entityId componentName externalId propertyName : string) : Prop :=
  EntityPropertyReference.EntityId r = Some entityId /\
  EntityPropertyReference.ComponentName r = Some componentName /\
  (exists key rest,
      EntityPropertyReference.ExternalIdProperty r
      = (key, Some externalId) :: rest) /\
  EntityPropertyReference.PropertyName r = Some propertyName.

(** Two quadruples of fields that differ in one position and agree in the
    three others. *)
Definition differInOneField (e1 c1 x1 p1 e2 c2 x2 p2 : string) : Prop :=
  (e1 <> e2 /\ c1 = c2 /\ x1 = x2 /\ p1 = p2) \/
  (e1 = e2 /\ c1 <> c2 /\ x1 = x2 /\ p1 = p2) \/
  (e1 = e2 /\ c1 = c2 /\ x1 <> x2 /\ p1 = p2) \/
  (e1 = e2 /\ c1 = c2 /\ x1 = x2 /\ p1 <> p2).

(** No occurrence of the separator. *)
Fixpoint separatorFree (text : string) : bool :=
  match text with
  | EmptyString => true
  | String c rest => negb (c =? "_")%char && separatorFree rest
  end.

(** The fields the claim about keys ranges over: non-empty and pairwise
    distinct. *)
Definition nonEmptyDistinct (e c x p : string) : Prop :=
  e <> "" /\ c <> "" /\ x <> "" /\ p <> "" /\
  e <> c /\ e <> x /\ e <> p /\ c <> x /\ c <> p /\ x <> p.

(** Two references that share a key although the entity ids and the
    component names differ. *)
Definition splitLeft : EntityPropertyReference.t :=
  EntityPropertyReference.Build (Some "c") (Some "a_b") [("k", Some "x")] (Some "p").

Definition splitRight : EntityPropertyReference.t :=
  EntityPropertyReference.Build (Some "b_c") (Some "a") [("k", Some "x")] (Some "p").

(** Section 4.2, step c: "the first one whose component-type id equals the
    query's target component type". *)
Definition hasType (componentTypeId : string)
    (entry : string * option ComponentResponse.t) : bool :=
  match snd entry with
  | Some component =>
      match ComponentResponse.ComponentTypeId component with
      | Some typeId => typeId =? componentTypeId
      | None => false
      end
  | None => false
  end.

(** "the one flagged as the external-id property" whose "value (as a
    string) equals the external identifier". *)
Definition carriesExternalId (externalId : string)
    (entry : string * option PropertyResponse.t) : bool :=
  match snd entry with
  | Some property =>
      match PropertyResponse.Definition_ property, PropertyResponse.Value property with
      | Some definition, Some value =>
          match PropertyDefinitionResponse.IsExternalId definition,
                DataValue.StringValue value with
          | Some true, Some stringValue => stringValue =? externalId
          | _, _ => false
          end
      | _, _ => false
      end
  | None => false
  end.

(** "the component's name is the resolution"; "if no component matches the
    type, or no property is flagged/matches, the resolved component name is
    the empty string". *)
Definition componentNameSpec (componentTypeId externalId : string)
    (components : Go.map (option ComponentResponse.t)) : string :=
  match List.find (hasType componentTypeId) components with
  | Some (_, Some component) =>
      if List.existsb (carriesExternalId externalId)
           (ComponentResponse.Properties component)
      then match ComponentResponse.ComponentName component with
           | Some name => name
           | None => ""
           end
      else ""
  | _ => ""
  end.

(** A component's name, or [fallback] when the pointer is nil. *)
Definition nameOr (fallback : string) (name : option string) : string :=
  match name with
  | Some n => n
  | None => fallback
  end.

(** The same resolution when the scan starts with [current] as component
    name instead of the empty string. *)
Definition scanFrom (componentTypeId externalId : string)
    (components : Go.map (option ComponentResponse.t)) (current : string)
  : string :=
  match List.find (hasType componentTypeId) components with
  | Some (_, Some component) =>
      if List.existsb (carriesExternalId externalId)
           (ComponentResponse.Properties component)
      then nameOr "" (ComponentResponse.ComponentName component)
      else current
  | _ => current
  end.

(** An entity-detail response without a nil pointer where the scan reads:
    properties carry their definition and flag, flagged ones their string
    value, components their name and type. *)
Definition isSet {A} (p : option A) : bool :=
  match p with Some _ => true | None => false end.

Definition readableProperty (entry : string * option PropertyResponse.t) : bool :=
  match snd entry with
  | Some property =>
      match PropertyResponse.Definition_ property with
      | Some definition =>
          match PropertyDefinitionResponse.IsExternalId definition with
          | Some true =>
              match PropertyResponse.Value property with
              | Some value => isSet (DataValue.StringValue value)
              | None => false
              end
          | Some false => true
          | None => false
          end
      | None => false
      end
  | None => false
  end.

Definition readableComponent (entry : string * option ComponentResponse.t) : bool :=
  match snd entry with
  | Some component =>
      isSet (ComponentResponse.ComponentTypeId component)
      && isSet (ComponentResponse.ComponentName component)
      && List.forallb readableProperty (ComponentResponse.Properties component)
  | None => false
  end.

(** ** Scenarios

    A client for concrete runs.  Its state counts the calls served; the
    history call answers [history], a search answers by the external id of
    the query's first filter, a detail call by the query's entity id. *)
Definition scripted
    (history : option (GetPropertyValueHistoryOutput.t string) * option error)
    (search : string -> option ListEntitiesOutput.t * option error)
    (detail : string -> option GetEntityOutput.t * option error)
  : twinMakerHandler nat string string :=
  {| client :=
       {| GetPropertyValueHistory := fun _ served => (history, S served);
          ListEntities := fun query served =>
            (search match TwinMakerQuery.ListEntitiesFilter query with
                    | filter :: _ => TwinMakerListEntitiesFilter.ExternalId filter
                    | [] => ""
                    end,
             S served);
          GetEntity := fun query served =>
            (detail (TwinMakerQuery.EntityId query), S served) |} |}.

Definition batch (externalId propertyName value : string)
  : option (PropertyValueHistory.t string) :=
  Some (PropertyValueHistory.Build
          (Some (EntityPropertyReference.Build None None
                   [("alarm_key", Some externalId)] (Some propertyName)))
          [Some value]).

Definition batches (bs : list (option (PropertyValueHistory.t string)))
  : option (GetPropertyValueHistoryOutput.t string) * option error :=
  (Some (GetPropertyValueHistoryOutput.Build bs), None).

Definition found (entityId entityName : string)
  : option ListEntitiesOutput.t * option error :=
  (Some (ListEntitiesOutput.Build
           [Some (EntitySummary.Build (Some entityId) (Some entityName))]),
   None).

Definition sensor (name typeId externalId : string)
  : string * option ComponentResponse.t :=
  (name,
   Some (ComponentResponse.Build (Some name) (Some typeId)
           [("alarm_key",
             Some (PropertyResponse.Build
                     (Some (PropertyDefinitionResponse.Build (Some true)))
                     (Some (DataValue.Build (Some externalId)))))])).

Definition components (cs : Go.map (option ComponentResponse.t))
  : option GetEntityOutput.t * option error :=
  (Some (GetEntityOutput.Build cs), None).

Definition sensorQuery : TwinMakerQuery.t string :=
  TwinMakerQuery.Build "" [Some "temperature"] "com.example.sensor" []
    "workspace-1".

(** Section 8, end-to-end scenario. *)
Definition boiler : twinMakerHandler nat string string :=
  scripted (batches [batch "ext-42" "temperature" "21.5"])
    (fun _ => found "e1" "Boiler")
    (fun _ => components [sensor "tempSensor" "com.example.sensor" "ext-42"]).

(** Three batches, each external id naming the entity that carries it;
    the search for the second one fails the way Go functions fail, with a
    nil result next to the error. *)
Definition searchFailed : error := Go.New "ListEntities: request timed out".

Definition secondSearchFails : twinMakerHandler nat string string :=
  scripted
    (batches [batch "x1" "temperature" "1"; batch "x2" "temperature" "2";
              batch "x3" "temperature" "3"])
    (fun externalId =>
       if externalId =? "x2" then (None, Some searchFailed)
       else found externalId "Boiler")
    (fun entityId => components [sensor "tempSensor" "com.example.sensor" entityId]).

(** The same, the failed search handing back an output that still lists an
    entity. *)
Definition secondSearchFailsWithOutput : twinMakerHandler nat string string :=
  scripted
    (batches [batch "x1" "temperature" "1"; batch "x2" "temperature" "2";
              batch "x3" "temperature" "3"])
    (fun externalId =>
       if externalId =? "x2" then (fst (found "x2" "Boiler"), Some searchFailed)
       else found externalId "Boiler")
    (fun entityId => components [sensor "tempSensor" "com.example.sensor" entityId]).

(** The entity found for the external id has a component of another type
    only. *)
Definition otherType : twinMakerHandler nat string string :=
  scripted (batches [batch "ext-42" "temperature" "21.5"])
    (fun _ => found "e1" "Boiler")
    (fun _ => components [sensor "pump" "com.example.pump" "ext-42"]).

Definition historyFailed : error := Go.New "GetPropertyValueHistory: access denied".

Definition noHistory : twinMakerHandler nat string string :=
  scripted (None, Some historyFailed)
    (fun _ => found "e1" "Boiler")
    (fun _ => components []).

Definition emptyHistory : twinMakerHandler nat string string :=
  scripted (batches [])
    (fun _ => found "e1" "Boiler")
    (fun _ => components []).

Definition nothingFound : twinMakerHandler nat string string :=
  scripted (batches [batch "ext-42" "temperature" "21.5"])
    (fun _ => (Some (ListEntitiesOutput.Build []), None))
    (fun _ => components []).

(** What a run returns, the state of the service left aside. *)
Definition returned {W R A} (run : outcome (A * world W R)) : outcome A :=
  match run with
  | Returned (a, _) => Returned a
  | Panicked => Panicked
  end.

Definition boilerBatch : option (PropertyValueHistory.t string) :=
  batch "ext-42" "temperature" "21.5".

Definition boilerReference (componentName : string) : PropertyReference.t string :=
  PropertyReference.Build [Some "21.5"]
    (Some (EntityPropertyReference.Build (Some componentName) (Some "e1")
             [("alarm_key", Some "ext-42")] (Some "temperature")))
    (Some "Boiler").

(** The [data] map of [LoadPolicy], lines 28-32. *)
Definition policyData (workspace : GetWorkspaceOutput.t) : Go.map (option string) :=
  [ ("S3BucketArn", GetWorkspaceOutput.S3Location workspace);
    ("WorkspaceArn", GetWorkspaceOutput.Arn workspace);
    ("WorkspaceId", GetWorkspaceOutput.WorkspaceId workspace) ].

(** Stand-ins for the three library functions in concrete runs of
    [LoadPolicy].  They do what the Go functions do on texts such as the
    policy template: [compactJSON] drops the white space outside JSON
    strings and reports a string left open; [parseTemplate] cuts the text
    at the action delimiters and accepts field actions only;
    [executeTemplate] writes the text and, for each field, the string the
    data holds under that key. *)
Definition isSpace (c : ascii) : bool :=
  (c =? " ")%char || (c =? "009")%char || (c =? "010")%char || (c =? "013")%char.

Definition keep {E} (c : ascii) (r : string + E) : string + E :=
  match r with
  | inl text => inl (String c text)
  | inr e => inr e
  end.

Fixpoint compactFrom (inString escaped : bool) (src : string) : string + error :=
  match src with
  | EmptyString =>
      if inString then inr (Go.New "unexpected end of JSON input")
      else inl EmptyString
  | String c rest =>
      if inString then
        if escaped then keep c (compactFrom true false rest)
        else if (c =? "\")%char then keep c (compactFrom true true rest)
        else if (c =? ascii_of_nat 34)%char then keep c (compactFrom false false rest)
        else keep c (compactFrom true false rest)
      else if isSpace c then compactFrom false false rest
      else if (c =? ascii_of_nat 34)%char then keep c (compactFrom true false rest)
      else keep c (compactFrom false false rest)
  end.

Definition compactJSON (src : string) : string + error :=
  compactFrom false false src.

Inductive node : Type :=
| TextNode (text : string)
| FieldNode (name : string).

Definition withNode {E} (n : node) (r : list node + E) : list node + E :=
  match r with
  | inl nodes => inl (n :: nodes)
  | inr e => inr e
  end.

Fixpoint parseFrom (inAction : bool) (seen : string) (src : string)
  : list node + error :=
  match src with
  | EmptyString =>
      if inAction then inr (Go.New "template: policy:1: unclosed action")
      else inl [TextNode seen]
  | String c rest =>
      match rest with
      | String d rest' =>
          if negb inAction && (c =? "{")%char && (d =? "{")%char then
            withNode (TextNode seen) (parseFrom true "" rest')
          else if inAction && (c =? "}")%char && (d =? "}")%char then
            match seen with
            | String "." name => withNode (FieldNode name) (parseFrom false "" rest')
            | _ => inr (Go.New "template: policy:1: unexpected text in command")
            end
          else parseFrom inAction (seen ++ String c "") rest
      | EmptyString => parseFrom inAction (seen ++ String c "") rest
      end
  end.

Definition parseTemplate (text : string) : list node + error :=
  parseFrom false "" text.

Definition fieldText (data : Go.map (option string)) (name : string) : string :=
  match List.find (fun entry => fst entry =? name) data with
  | Some (_, Some text) => text
  | Some (_, None) => "<nil>"
  | None => "<no value>"
  end.

Definition executeTemplate (t : list node) (data : Go.map (option string))
  : string * option error :=
  (List.fold_right
     (fun n written =>
        match n with
        | TextNode text => text ++ written
        | FieldNode name => fieldText data name ++ written
        end)
     "" t,
   None).

(** An execution whose writer fails after the first byte. *)
Definition failingExecute (t : list node) (data : Go.map (option string))
  : string * option error :=
  ("{", Some (Go.New "template: policy:1:14: executing policy: write failed")).

Definition demoWorkspace : GetWorkspaceOutput.t :=
  GetWorkspaceOutput.Build (Some "arn:aws:iottwinmaker:us-east-1:1:workspace/w")
    (Some "arn:aws:s3:::bucket") (Some "w").

(** The policy document for [demoWorkspace], written like
    [policyTemplate] with a single quote for each double quote. *)
Definition demoPolicy : string := Eval vm_compute in requote
"{'Version':'2012-10-17','Statement':[{'Action':['iottwinmaker:ListWorkspaces'],'Resource':['*'],'Effect':'Allow'},{'Action':['iottwinmaker:Get*','iottwinmaker:List*'],'Resource':['arn:aws:iottwinmaker:us-east-1:1:workspace/w','arn:aws:iottwinmaker:us-east-1:1:workspace/w/*'],'Effect':'Allow'},{'Effect':'Allow','Action':['kinesisvideo:GetDataEndpoint','kinesisvideo:GetHLSStreamingSessionURL'],'Resource':'*'},{'Effect':'Allow','Action':['iotsitewise:GetAssetPropertyValue','iotsitewise:GetInterpolatedAssetPropertyValues'],'Resource':'*'},{'Effect':'Allow','Action':['iotsitewise:BatchPutAssetPropertyValue'],'Resource':'*','Condition':{'StringLike':{'aws:ResourceTag/EdgeConnectorForKVS':'*w*'}}},{'Effect':'Allow','Action':['s3:GetObject'],'Resource':['arn:aws:s3:::bucket','arn:aws:s3:::bucket/*']}]}".

(** ** URL detection and data links *)

(** [strings.Contains] of Go's standard library, by its documentation:
    whether [substr] is within [s]. *)
Fixpoint Contains (s substr : string) : bool :=
  String.prefix substr s
  || match s with
     | EmptyString => false
     | String _ rest => Contains rest substr
     end.

(** An [interface{}] value as the type switch of [checkForUrl] sees it:
    a [*string] (nil or not), or a value of any other dynamic type, the
    nil interface included. *)
Inductive any (O : Type) : Type :=
| StringPointer (p : option string)
| OtherValue (o : O).
Arguments StringPointer {O}.
Arguments OtherValue {O}.

(** Lines 114-126.  In the [*string] case the text searched is read from
    [v.StringValue], not from the converted value. *)
Definition checkForUrl {O} (v : option DataValue.t)
    (convertor : option DataValue.t -> any O) : outcome bool :=
  let val := convertor v in
  match val with
  | StringPointer _ =>
      value <- deref v ;;
      val <- deref (DataValue.StringValue value) ;;
      if Contains val "://" then Returned true else Returned false
  | OtherValue _ => Returned false
  end.

Module DataLink.
Record t : Type := Build {
  Title : string;
  URL : string;
  TargetBlank : bool
}.
End DataLink.

Module FieldConfig.
(** [Other] holds the settings of a field configuration besides its
    links (display name, unit, ...). *)
Record t (C : Type) : Type := Build {
  Links : list DataLink.t;
  Other : C
}.
Arguments Build {C}.
Arguments Links {C}.
Arguments Other {C}.
End FieldConfig.

Module Field.
(** [Rest] holds the name, labels and values of the field. *)
Record t (C F : Type) : Type := Build {
  Config : option (FieldConfig.t C);
  Rest : F
}.
Arguments Build {C F}.
Arguments Config {C F}.
Arguments Rest {C F}.
End Field.

(** Lines 128-134.  [zero] is the zero value of the settings the composite
    literal leaves out; the result is the field after the assignment. *)
Definition setUrlDatalink {C F} (zero : C) (field : option (Field.t C F))
  : outcome (Field.t C F) :=
  field <- deref field ;;
  Returned
    (Field.Build
       (Some (FieldConfig.Build
                [DataLink.Build "Link" "${__value.text}" true]
                zero))
       (Field.Rest field)).

(** ** Predicates on what the resolver returns *)

(** A property reference built from the batch [pv]: its values, its
    external-id mapping and its property name are the batch's. *)
Definition resolvedFrom {V} (pv : PropertyValueHistory.t V)
    (pr : PropertyReference.t V) : Prop :=
  PropertyReference.values pr = PropertyValueHistory.Values pv /\
  exists ref componentName entityId,
    PropertyValueHistory.EntityPropertyReference pv = Some ref /\
    PropertyReference.entityPropertyReference pr
    = Some (EntityPropertyReference.Build
              (Some componentName) (Some entityId)
              (EntityPropertyReference.ExternalIdProperty ref)
              (EntityPropertyReference.PropertyName ref)).

(** The references answer, one for one and in the same order, batches
    picked from the list without reordering. *)
Inductive inBatchOrder {V}
  : list (option (PropertyValueHistory.t V)) ->
    list (PropertyReference.t V) -> Prop :=
| order_done : inBatchOrder [] []
| order_skipped b bs prs :
    inBatchOrder bs prs -> inBatchOrder (b :: bs) prs
| order_resolved pv bs pr prs :
    resolvedFrom pv pr -> inBatchOrder bs prs ->
    inBatchOrder (Some pv :: bs) (pr :: prs).

Definition isSearch {R} (c : call R) : bool :=
  match c with CallListEntities _ => true | _ => false end.

Definition isDetail {R} (c : call R) : bool :=
  match c with CallGetEntity _ => true | _ => false end.

(** The query of a search or detail call: the caller's entity id (for a
    search), property list and component type are gone, one filter on an
    external id is set, and the rest is the caller's. *)
Definition lookupCall {R} (rest : R) (c : call R) : Prop :=
  match c with
  | CallGetPropertyValueHistory _ => False
  | CallListEntities q =>
      TwinMakerQuery.EntityId q = "" /\
      TwinMakerQuery.Properties q = [] /\
      TwinMakerQuery.ComponentTypeId q = "" /\
      (exists externalId,
          TwinMakerQuery.ListEntitiesFilter q
          = [TwinMakerListEntitiesFilter.Build externalId]) /\
      TwinMakerQuery.Rest q = rest
  | CallGetEntity q =>
      TwinMakerQuery.Properties q = [] /\
      TwinMakerQuery.ComponentTypeId q = "" /\
      (exists externalId,
          TwinMakerQuery.ListEntitiesFilter q
          = [TwinMakerListEntitiesFilter.Build externalId]) /\
      TwinMakerQuery.Rest q = rest
  end.

Definition isWarning (notice : Notice.t) : Prop :=
  Notice.Severity notice = Notice.NoticeSeverityWarning.

(** Two renderings of one entity-detail response: the same components
    under the same keys, each with its properties in any order. *)
Definition sameComponent (a b : string * option ComponentResponse.t) : Prop :=
  fst a = fst b /\
  match snd a, snd b with
  | Some c, Some d =>
      ComponentResponse.ComponentName c = ComponentResponse.ComponentName d /\
      ComponentResponse.ComponentTypeId c = ComponentResponse.ComponentTypeId d /\
      Permutation (ComponentResponse.Properties c) (ComponentResponse.Properties d)
  | None, None => True
  | _, _ => False
  end.

(** Three batches, the detail call failing for the second one with an
    output that is still usable. *)
Definition detailFailed : error := Go.New "GetEntity: throttled".

Definition secondDetailFails : twinMakerHandler nat string string :=
  scripted
    (batches [batch "x1" "temperature" "1"; batch "x2" "temperature" "2";
              batch "x3" "temperature" "3"])
    (fun externalId => found externalId "Boiler")
    (fun entityId =>
       if entityId =? "x2"
       then (fst (components [sensor "tempSensor" "com.example.sensor" entityId]),
             Some detailFailed)
       else components [sensor "tempSensor" "com.example.sensor" entityId]).

(** The detail call for the second batch returns nothing at all. *)
Definition secondDetailEmpty : twinMakerHandler nat string string :=
  scripted
    (batches [batch "x1" "temperature" "1"; batch "x2" "temperature" "2";
              batch "x3" "temperature" "3"])
    (fun externalId => found externalId "Boiler")
    (fun entityId =>
       if entityId =? "x2" then (None, Some detailFailed)
       else components [sensor "tempSensor" "com.example.sensor" entityId]).

(** The parts of what a run returns; a run that panics returns none. *)
Definition referencesOf {W V R}
    (run : outcome (list (PropertyReference.t V) * list Notice.t * option error
                    * world W R)) : list (PropertyReference.t V) :=
  match run with
  | Returned ((prs, _, _), _) => prs
  | Panicked => []
  end.

Definition noticesOf {W V R}
    (run : outcome (list (PropertyReference.t V) * list Notice.t * option error
                    * world W R)) : list Notice.t :=
  match run with
  | Returned ((_, notices, _), _) => notices
  | Panicked => []
  end.

Definition errorOf {W V R}
    (run : outcome (list (PropertyReference.t V) * list Notice.t * option error
                    * world W R)) : option error :=
  match run with
  | Returned ((_, _, err), _) => err
  | Panicked => None
  end.

Definition logOf {W V R}
    (run : outcome (list (PropertyReference.t V) * list Notice.t * option error
                    * world W R)) : list (call R) :=
  match run with
  | Returned (_, (_, log)) => log
  | Panicked => []
  end.

Definition threeBatches : list (option (PropertyValueHistory.t string)) :=
  [batch "x1" "temperature" "1"; batch "x2" "temperature" "2";
   batch "x3" "temperature" "3"].

(** What a field adds to the key in lines 145-150: its text and the
    separator, or nothing when the pointer is nil. *)
Definition segment (field : option string) : string :=
  match field with
  | Some text => text ++ "_"
  | None => ""
  end.

(** A history output whose second batch is nil. *)
Definition nilBatch : twinMakerHandler nat string string :=
  scripted (batches [batch "x1" "temperature" "1"; None])
    (fun externalId => found externalId "Boiler")
    (fun entityId => components [sensor "tempSensor" "com.example.sensor" entityId]).

Definition secondBatch : PropertyValueHistory.t string :=
  PropertyValueHistory.Build
    (Some (EntityPropertyReference.Build None None
             [("alarm_key", Some "x2")] (Some "temperature")))
    [Some "2"].

Definition secondReference : EntityPropertyReference.t :=
  EntityPropertyReference.Build None None
    [("alarm_key", Some "x2")] (Some "temperature").

(** A reference as another call of the key function meets it: the same
    fields, and the same external-id entries in whatever order the map
    iteration yields them this time. *)
Definition seenAgain (r again : EntityPropertyReference.t) : Prop :=
  EntityPropertyReference.EntityId again = EntityPropertyReference.EntityId r /\
  EntityPropertyReference.ComponentName again
  = EntityPropertyReference.ComponentName r /\
  EntityPropertyReference.PropertyName again
  = EntityPropertyReference.PropertyName r /\
  Permutation (EntityPropertyReference.ExternalIdProperty r)
    (EntityPropertyReference.ExternalIdProperty again).

Definition singleExternalId (r : EntityPropertyReference.t) : Prop :=
  length (EntityPropertyReference.ExternalIdProperty r) = 1.

(** The entity found has a component of the queried type whose external-id
    property is flagged but carries no value. *)
Definition valueless : string * option ComponentResponse.t :=
  ("tempSensor",
   Some (ComponentResponse.Build (Some "tempSensor") (Some "com.example.sensor")
           [("alarm_key",
             Some (PropertyResponse.Build
                     (Some (PropertyDefinitionResponse.Build (Some true)))
                     None))])).

Definition flaggedWithoutValue : twinMakerHandler nat string string :=
  scripted (batches [batch "ext-42" "temperature" "21.5"])
    (fun _ => found "e1" "Boiler")
    (fun _ => components [valueless]).

(** The same with a detail call that fails and still hands back that
    output. *)
Definition flaggedWithoutValueFailing : twinMakerHandler nat string string :=
  scripted (batches [batch "ext-42" "temperature" "21.5"])
    (fun _ => found "e1" "Boiler")
    (fun _ => (fst (components [valueless]), Some detailFailed)).

(** * Properties *)

(** ** Strings *)

Lemma append_assoc (a b c : string) : (a ++ b) ++ c = a ++ (b ++ c).
Proof.
  induction a as [|ch a IH]; simpl; [reflexivity | now rewrite IH].
Qed.

Lemma append_length (a b : string) :
  String.length (a ++ b) = String.length a + String.length b.
Proof.
  induction a as [|ch a IH]; simpl; [reflexivity | now rewrite IH].
Qed.

Lemma append_cancel_prefix (a b c : string) : a ++ b = a ++ c -> b = c.
Proof.
  induction a as [|ch a IH]; simpl; intros H; [exact H |].
  injection H as H. now apply IH.
Qed.

Lemma append_cancel_suffix (a b c : string) : a ++ c = b ++ c -> a = b.
Proof.
  revert b. induction a as [|ch a IH]; intros [|ch' b] H; simpl in H.
  - reflexivity.
  - apply (f_equal String.length) in H. simpl in H.
    rewrite append_length in H. lia.
  - apply (f_equal String.length) in H. simpl in H.
    rewrite append_length in H. lia.
  - injection H as Hc H. subst ch'. f_equal. now apply IH.
Qed.

(** A separator-free segment ends at the first separator: two texts that
    start with such segments followed by the separator split the same
    way. *)
Lemma separatorFree_split (a b s t : string) :
  separatorFree a = true -> separatorFree b = true ->
  a ++ "_" ++ s = b ++ "_" ++ t -> a = b /\ s = t.
Proof.
  revert b. induction a as [|ch a IH]; intros [|ch' b] Ha Hb H; simpl in *.
  - injection H as H. now split.
  - injection H as Hc _. subst ch'. discriminate Hb.
  - injection H as Hc _. subst ch. discriminate Ha.
  - injection H as Hc H. subst ch'.
    apply andb_prop in Ha as [_ Ha]. apply andb_prop in Hb as [_ Hb].
    destruct (IH b Ha Hb H) as [-> ->]. now split.
Qed.

(** ** Identifier composer *)

Example key_all_fields :
  GetEntityPropertyReferenceKey
    (Some (EntityPropertyReference.Build (Some "comp") (Some "ent")
             [("k", Some "x1")] (Some "prop")))
  = Returned "ent_comp_x1_prop".
Proof. reflexivity. Qed.

Example key_absent_fields :
  GetEntityPropertyReferenceKey
    (Some (EntityPropertyReference.Build None None [] None))
  = Returned "_".
Proof. reflexivity. Qed.

Example key_nil_reference : GetEntityPropertyReferenceKey None = Panicked.
Proof. reflexivity. Qed.

Lemma extractExternalId_cons (first : string * option string)
    (rest : Go.map (option string)) :
  extractExternalId (first :: rest) = deref (snd first).
Proof.
  unfold extractExternalId. simpl. now destruct (snd first).
Qed.

(** The entry the runtime yields first decides: the same map visited in
    another order gives another external id. *)
Example extractExternalId_order_matters :
  extractExternalId [("a", Some "1"); ("b", Some "2")] = Returned "1" /\
  extractExternalId [("b", Some "2"); ("a", Some "1")] = Returned "2".
Proof. split; reflexivity. Qed.

(** C8, as stated, fails: one mapping of two entries, met in the two
    orders a Go map iteration can yield them, gives two different
    external ids, so the entry returned is not the same on every call. *)
Lemma external_id_differs_between_calls :
  Permutation [("a", Some "1"); ("b", Some "2")] [("b", Some "2"); ("a", Some "1")] /\
  2 <= length [("a", Some "1"); ("b", Some "2")] /\
  extractExternalId [("a", Some "1"); ("b", Some "2")] = Returned "1" /\
  extractExternalId [("b", Some "2"); ("a", Some "1")] = Returned "2" /\
  extractExternalId [("a", Some "1"); ("b", Some "2")]
  <> extractExternalId [("b", Some "2"); ("a", Some "1")].
Proof.
  split; [apply perm_swap |]. split; [simpl; lia |].
  repeat split. discriminate.
Qed.

(** C8, amended.  The external-id extraction returns the empty string on
    an empty mapping and otherwise the value of the entry that the map
    iteration yields first (read through its pointer, so a nil value is a
    nil dereference).  The result is the same on every call, whatever the
    order of the iteration, when the mapping is empty, has one entry or
    holds one value only; with two entries of different values the two
    orders give different results. *)
Theorem extractExternalId_first_yielded :
  (forall again, Permutation [] again -> extractExternalId again = Returned "") /\
  (forall first rest, extractExternalId (first :: rest) = deref (snd first)) /\
  (forall mapping again value,
      mapping <> [] ->
      Forall (fun entry : string * option string => snd entry = Some value) mapping ->
      Permutation mapping again ->
      extractExternalId again = Returned value) /\
  (forall key1 value1 key2 value2 rest,
      value1 <> value2 ->
      extractExternalId ((key1, Some value1) :: (key2, Some value2) :: rest)
      <> extractExternalId ((key2, Some value2) :: (key1, Some value1) :: rest)).
Proof.
  split; [| split; [| split]].
  - intros again Hperm. now apply Permutation_nil in Hperm as ->.
  - apply extractExternalId_cons.
  - intros mapping again value Hnonempty Hvalues Hperm.
    destruct again as [|first rest].
    + apply Permutation_sym, Permutation_nil in Hperm. contradiction.
    + rewrite extractExternalId_cons.
      rewrite Forall_forall in Hvalues.
      rewrite (Hvalues first); [reflexivity |].
      apply (Permutation_in _ (Permutation_sym Hperm)). now left.
  - intros key1 value1 key2 value2 rest Hdiff.
    rewrite !extractExternalId_cons. simpl. intros H. injection H as H.
    contradiction.
Qed.

Lemma extractExternalId_first_yielded_witness :
  extractExternalId [("asset_key", Some "x1"); ("alarm_key", Some "x1")]
  = Returned "x1".
Proof.
  apply (proj1 (proj2 (proj2 extractExternalId_first_yielded))
           [("alarm_key", Some "x1"); ("asset_key", Some "x1")]
           [("asset_key", Some "x1"); ("alarm_key", Some "x1")] "x1").
  - discriminate.
  - repeat constructor.
  - apply perm_swap.
Defined.

Lemma key_of_fields (r : EntityPropertyReference.t) (e c x p : string) :
  hasFields r e c x p ->
  GetEntityPropertyReferenceKey (Some r) = Returned (compositeKey e c x p).
Proof.
  intros (He & Hc & (k & rest & Hx) & Hp).
  unfold GetEntityPropertyReferenceKey, compositeKey. simpl.
  rewrite Hx, extractExternalId_cons, He, Hc, Hp. simpl.
  now rewrite !append_assoc.
Qed.

Lemma compositeKey_one_field (e1 c1 x1 p1 e2 c2 x2 p2 : string) :
  differInOneField e1 c1 x1 p1 e2 c2 x2 p2 ->
  compositeKey e1 c1 x1 p1 <> compositeKey e2 c2 x2 p2.
Proof.
  unfold compositeKey.
  intros [(Hd & -> & -> & ->) | [(-> & Hd & -> & ->)
         | [(-> & -> & Hd & ->) | (-> & -> & -> & Hd)]]] H; apply Hd.
  - now apply append_cancel_suffix in H.
  - apply append_cancel_prefix in H. simpl in H. injection H as H.
    now apply append_cancel_suffix in H.
  - do 2 (apply append_cancel_prefix in H; simpl in H; injection H as H).
    now apply append_cancel_suffix in H.
  - do 3 (apply append_cancel_prefix in H; simpl in H; injection H as H).
    exact H.
Qed.

Lemma compositeKey_separatorFree (e1 c1 x1 p1 e2 c2 x2 p2 : string) :
  separatorFree e1 = true -> separatorFree c1 = true -> separatorFree x1 = true ->
  separatorFree e2 = true -> separatorFree c2 = true -> separatorFree x2 = true ->
  compositeKey e1 c1 x1 p1 = compositeKey e2 c2 x2 p2 ->
  (e1, c1, x1, p1) = (e2, c2, x2, p2).
Proof.
  unfold compositeKey. intros He1 Hc1 Hx1 He2 Hc2 Hx2 H.
  apply separatorFree_split in H as [-> H]; [| assumption ..].
  apply separatorFree_split in H as [-> H]; [| assumption ..].
  apply separatorFree_split in H as [-> ->]; [| assumption ..].
  reflexivity.
Qed.

(** C7, as stated, fails: [splitLeft] and [splitRight] have all four
    fields set to non-empty, pairwise distinct strings and differ in entity
    id and component name, yet both get the key a_b_c_x_p. *)
Lemma key_collision_across_fields :
  hasFields splitLeft "a_b" "c" "x" "p" /\ nonEmptyDistinct "a_b" "c" "x" "p" /\
  hasFields splitRight "a" "b_c" "x" "p" /\ nonEmptyDistinct "a" "b_c" "x" "p" /\
  ("a_b", "c", "x", "p") <> ("a", "b_c", "x", "p") /\
  GetEntityPropertyReferenceKey (Some splitLeft)
  = GetEntityPropertyReferenceKey (Some splitRight).
Proof.
  repeat split; try discriminate; try reflexivity;
    exists "k", []; reflexivity.
Qed.

Lemma seenAgain_fields (r again : EntityPropertyReference.t) (e c x p : string) :
  hasFields r e c x p -> singleExternalId r -> seenAgain r again ->
  hasFields again e c x p.
Proof.
  intros (He & Hc & (key & rest & Hx) & Hp) Hsingle (He' & Hc' & Hp' & Hperm).
  unfold singleExternalId in Hsingle. rewrite Hx in Hsingle, Hperm.
  destruct rest as [|entry rest]; [| discriminate Hsingle].
  apply Permutation_length_1_inv in Hperm.
  repeat split; try congruence. now exists key, [].
Qed.

Lemma seenAgain_refl (r : EntityPropertyReference.t) : seenAgain r r.
Proof. now repeat split. Qed.

(** C7, amended.  For references with entity id, component name and
    property name set and exactly one external-id entry, the key is the
    separator-joined concatenation of the four fields on every call,
    whatever the map iteration does, so equal fields give equal keys; two
    such references get different keys when they differ in exactly one
    field, and also when they differ in any fields while the entity ids,
    component names and external ids hold no separator. *)
Theorem key_same_on_every_call_and_distinct
    (r1 r2 : EntityPropertyReference.t) (e1 c1 x1 p1 e2 c2 x2 p2 : string) :
  hasFields r1 e1 c1 x1 p1 -> singleExternalId r1 ->
  hasFields r2 e2 c2 x2 p2 -> singleExternalId r2 ->
  (forall again,
      seenAgain r1 again ->
      GetEntityPropertyReferenceKey (Some again)
      = Returned (compositeKey e1 c1 x1 p1)) /\
  (forall again,
      seenAgain r2 again ->
      GetEntityPropertyReferenceKey (Some again)
      = Returned (compositeKey e2 c2 x2 p2)) /\
  ((e1, c1, x1, p1) = (e2, c2, x2, p2) ->
   forall again1 again2,
     seenAgain r1 again1 -> seenAgain r2 again2 ->
     GetEntityPropertyReferenceKey (Some again1)
     = GetEntityPropertyReferenceKey (Some again2)) /\
  (differInOneField e1 c1 x1 p1 e2 c2 x2 p2 \/
   (separatorFree e1 = true /\ separatorFree c1 = true /\ separatorFree x1 = true /\
    separatorFree e2 = true /\ separatorFree c2 = true /\ separatorFree x2 = true /\
    (e1, c1, x1, p1) <> (e2, c2, x2, p2)) ->
   forall again1 again2,
     seenAgain r1 again1 -> seenAgain r2 again2 ->
     GetEntityPropertyReferenceKey (Some again1)
     <> GetEntityPropertyReferenceKey (Some again2)).
Proof.
  intros H1 Hs1 H2 Hs2.
  assert (K1 : forall again, seenAgain r1 again ->
                 GetEntityPropertyReferenceKey (Some again)
                 = Returned (compositeKey e1 c1 x1 p1))
    by (intros again Ha; apply key_of_fields, (seenAgain_fields r1); assumption).
  assert (K2 : forall again, seenAgain r2 again ->
                 GetEntityPropertyReferenceKey (Some again)
                 = Returned (compositeKey e2 c2 x2 p2))
    by (intros again Ha; apply key_of_fields, (seenAgain_fields r2); assumption).
  split; [exact K1 |]. split; [exact K2 |]. split.
  - intros H again1 again2 Ha1 Ha2. rewrite (K1 _ Ha1), (K2 _ Ha2).
    now injection H as -> -> -> ->.
  - intros Hcases again1 again2 Ha1 Ha2. rewrite (K1 _ Ha1), (K2 _ Ha2).
    intros H. injection H as H.
    destruct Hcases as [Hd | (He1 & Hc1 & Hx1 & He2 & Hc2 & Hx2 & Hd)].
    + now apply (compositeKey_one_field _ _ _ _ _ _ _ _ Hd).
    + apply Hd. now apply compositeKey_separatorFree.
Qed.

Lemma key_same_on_every_call_and_distinct_witness :
  GetEntityPropertyReferenceKey
    (Some (EntityPropertyReference.Build (Some "comp") (Some "ent")
             [("k", Some "x1")] (Some "prop")))
  <> GetEntityPropertyReferenceKey
       (Some (EntityPropertyReference.Build (Some "comp") (Some "ent")
                [("k", Some "x1")] (Some "other"))).
Proof.
  apply (proj2 (proj2 (proj2
           (key_same_on_every_call_and_distinct
              (EntityPropertyReference.Build (Some "comp") (Some "ent")
                 [("k", Some "x1")] (Some "prop"))
              (EntityPropertyReference.Build (Some "comp") (Some "ent")
                 [("k", Some "x1")] (Some "other"))
              "ent" "comp" "x1" "prop" "ent" "comp" "x1" "other"
              (conj eq_refl (conj eq_refl
                 (conj (ex_intro _ "k" (ex_intro _ [] eq_refl)) eq_refl)))
              eq_refl
              (conj eq_refl (conj eq_refl
                 (conj (ex_intro _ "k" (ex_intro _ [] eq_refl)) eq_refl)))
              eq_refl)))).
  - left. right. right. right. repeat split. discriminate.
  - apply seenAgain_refl.
  - apply seenAgain_refl.
Defined.

(** ** Running the resolver *)

Section Running.

Context {W V R : Type}.

Lemma bindM_Returned {A B} (m : M W R A) (k : A -> M W R B) w a w' :
  m w = Returned (a, w') -> bindM m k w = k a w'.
Proof. unfold bindM. now intros ->. Qed.

Lemma bindM_Panicked {A B} (m : M W R A) (k : A -> M W R B) w :
  m w = Panicked -> bindM m k w = Panicked.
Proof. unfold bindM. now intros ->. Qed.

Lemma lift_Returned {A} (o : outcome A) (a : A) (w : world W R) :
  o = Returned a -> lift o w = Returned (a, w).
Proof. now intros ->. Qed.

Lemma lift_Panicked {A} (w : world W R) : lift (@Panicked A) w = Panicked.
Proof. reflexivity. Qed.

Lemma invoke_Returned {A} (method : TwinMakerQuery.t R -> W -> A * W)
    (event : TwinMakerQuery.t R -> call R) query st log a st' :
  method query st = (a, st') ->
  invoke method event query (st, log)
  = Returned (a, (st', (log ++ [event query])%list)).
Proof. unfold invoke. simpl. now intros ->. Qed.

Lemma rangeM_cons {E S} (body : E -> S -> M W R S) x xs s w s' w' :
  body x s w = Returned (s', w') ->
  rangeM body (x :: xs) s w = rangeM body xs s' w'.
Proof. intros H. simpl. now apply bindM_Returned. Qed.

Lemma rangeM_Panicked {E S} (body : E -> S -> M W R S) x xs s w :
  body x s w = Panicked -> rangeM body (x :: xs) s w = Panicked.
Proof. intros H. simpl. now apply bindM_Panicked. Qed.

Lemma rangeM_app {E S} (body : E -> S -> M W R S) xs ys s w :
  rangeM body (xs ++ ys)%list s w
  = bindM (rangeM body xs s) (rangeM body ys) w.
Proof.
  revert s w. induction xs as [|x xs IH]; intros s w; simpl.
  - reflexivity.
  - unfold bindM in IH |- *.
    destruct (body x s w) as [[s' w']|]; [apply IH | reflexivity].
Qed.

Lemma rangeM_split {E S} (body : E -> S -> M W R S) before x after s w s1 w1 s2 w2 :
  rangeM body before s w = Returned (s1, w1) ->
  body x s1 w1 = Returned (s2, w2) ->
  rangeM body (before ++ x :: after)%list s w = rangeM body after s2 w2.
Proof.
  intros Hbefore Hbody. rewrite rangeM_app.
  erewrite bindM_Returned by exact Hbefore. now apply rangeM_cons.
Qed.

End Running.

(** One step of a run: the next bound computation returns, by computation
    or by what the client is assumed to answer. *)
Ltac run_step :=
  erewrite bindM_Returned;
  [| first [ eapply lift_Returned;
             first [ eassumption
                   | reflexivity
                   | match goal with
                     | H : _ = Some _ |- _ => rewrite H; reflexivity
                     end ]
           | eapply invoke_Returned; eassumption ] ].

Ltac run := cbv beta iota zeta; repeat (run_step; cbv beta iota zeta).

(** ** The component scan *)

Lemma scanProperties_returns externalId component properties current name :
  scanProperties externalId component properties current = Returned name ->
  name = if List.existsb (carriesExternalId externalId) properties
         then nameOr "" (ComponentResponse.ComponentName component)
         else current.
Proof.
  unfold scanProperties.
  induction properties as [|[key property] properties IH]; simpl; intros H.
  - now injection H.
  - unfold carriesExternalId at 1. simpl.
    destruct property as [[[[[[|]|]]|] [[[stringValue|]]|]]|];
      simpl in H |- *; try discriminate H; try (now apply IH).
    destruct (stringValue =? externalId); [| now apply IH].
    destruct (ComponentResponse.ComponentName component);
      simpl in H; [now injection H | discriminate H].
Qed.

Lemma scanProperties_readable externalId component properties current name :
  ComponentResponse.ComponentName component = Some name ->
  List.forallb readableProperty properties = true ->
  scanProperties externalId component properties current
  = Returned (if List.existsb (carriesExternalId externalId) properties
              then name else current).
Proof.
  intros Hname. unfold scanProperties.
  induction properties as [|[key property] properties IH]; simpl; intros H.
  - reflexivity.
  - apply andb_prop in H as [Hp H]. unfold carriesExternalId at 1.
    unfold readableProperty in Hp. simpl in Hp |- *.
    destruct property as [[[[[[|]|]]|] [[[stringValue|]]|]]|];
      simpl in Hp |- *; try discriminate Hp; try (now apply IH).
    destruct (stringValue =? externalId); [| now apply IH].
    now rewrite Hname.
Qed.

Lemma scanComponents_returns componentTypeId externalId components name :
  scanComponents componentTypeId externalId components = Returned name ->
  name = componentNameSpec componentTypeId externalId components.
Proof.
  change (componentNameSpec componentTypeId externalId components)
    with (scanFrom componentTypeId externalId components "").
  unfold scanComponents. generalize "" as current.
  induction components as [|[key component] components IH]; intros current H.
  - simpl in H. now injection H.
  - unfold scanFrom. simpl in H |- *. unfold hasType at 1. simpl.
    destruct component as [component|]; [| discriminate H]. simpl in H.
    destruct (ComponentResponse.ComponentTypeId component) as [typeId|];
      [| discriminate H].
    simpl in H. destruct (typeId =? componentTypeId).
    + destruct (scanProperties externalId component
                  (ComponentResponse.Properties component) current)
        as [found|] eqn:Hscan; [| discriminate H].
      simpl in H. injection H as <-.
      now apply scanProperties_returns in Hscan.
    + now apply IH.
Qed.

Lemma scanComponents_readable componentTypeId externalId components :
  List.forallb readableComponent components = true ->
  scanComponents componentTypeId externalId components
  = Returned (componentNameSpec componentTypeId externalId components).
Proof.
  change (componentNameSpec componentTypeId externalId components)
    with (scanFrom componentTypeId externalId components "").
  unfold scanComponents. generalize "" as current.
  induction components as [|[key component] components IH]; intros current H.
  - reflexivity.
  - simpl in H. apply andb_prop in H as [Hc H].
    unfold scanFrom. simpl. unfold hasType at 1. unfold readableComponent in Hc.
    simpl in Hc |- *.
    destruct component as [component|]; [| discriminate Hc]. simpl.
    apply andb_prop in Hc as [Hc Hprops]. apply andb_prop in Hc as [Htype Hname].
    destruct (ComponentResponse.ComponentTypeId component) as [typeId|];
      [| discriminate Htype].
    destruct (ComponentResponse.ComponentName component) as [name|] eqn:En;
      [| discriminate Hname].
    simpl. destruct (typeId =? componentTypeId).
    + rewrite (scanProperties_readable _ _ _ _ _ En Hprops), En. reflexivity.
    + now apply IH.
Qed.

(** ** The resolver *)

Section LookupProperties.

Context {W V R : Type}.
Variable s : twinMakerHandler W V R.

(** C2.  When the history call returns an error, the resolver returns
    that error with no property reference and no notice, and has called
    nothing else. *)
Theorem history_error_is_fatal query st log result err st' :
  GetPropertyValueHistory (client s) query st = ((result, Some err), st') ->
  GetComponentHistoryWithLookup s query (st, log)
  = Returned (([], [], Some err),
              (st', (log ++ [CallGetPropertyValueHistory query])%list)).
Proof.
  intros H. unfold GetComponentHistoryWithLookup. run. reflexivity.
Qed.

(** C10.  When the history call succeeds with no property values, the
    resolver returns no property reference, no notice and a nil error;
    the history call is the only call it has made. *)
Theorem empty_history_calls_nothing_else query st log result st' :
  GetPropertyValueHistory (client s) query st = ((Some result, None), st') ->
  GetPropertyValueHistoryOutput.PropertyValues result = [] ->
  GetComponentHistoryWithLookup s query (st, log)
  = Returned (([], [], None),
              (st', (log ++ [CallGetPropertyValueHistory query])%list)).
Proof.
  intros H Hempty. unfold GetComponentHistoryWithLookup. run.
  rewrite Hempty. reflexivity.
Qed.

(** A search that fails with a nil output: the notice is recorded, then
    reading [le.EntitySummaries] panics. *)
Lemma search_error_nil_output componentTypeId pv ref externalId l st log err st1 :
  PropertyValueHistory.EntityPropertyReference pv = Some ref ->
  extractExternalId (EntityPropertyReference.ExternalIdProperty ref)
  = Returned externalId ->
  ListEntities (client s) (listEntitiesQuery (query l) externalId) st
  = ((None, Some err), st1) ->
  lookupBody s componentTypeId (Some pv) l (st, log) = Panicked.
Proof.
  intros Href Hext Hsearch. unfold lookupBody. run.
  reflexivity.
Qed.

(** A search that fails with an output that lists no entity: one warning
    with the error's message, no detail call, no reference, and the loop
    goes on. *)
Lemma search_error_empty_output componentTypeId pv ref externalId l st log
    err st1 rest :
  PropertyValueHistory.EntityPropertyReference pv = Some ref ->
  extractExternalId (EntityPropertyReference.ExternalIdProperty ref)
  = Returned externalId ->
  ListEntities (client s) (listEntitiesQuery (query l) externalId) st
  = ((Some (ListEntitiesOutput.Build []), Some err), st1) ->
  rangeM (lookupBody s componentTypeId) (Some pv :: rest) l (st, log)
  = rangeM (lookupBody s componentTypeId) rest
      (Locals (listEntitiesQuery (query l) externalId)
         (propertyReferences l)
         (failures l ++ [Notice.Build Notice.NoticeSeverityWarning (Error err)])%list)
      (st1, (log ++ [CallListEntities
                       (listEntitiesQuery (query l) externalId)])%list).
Proof.
  intros Href Hext Hsearch. apply rangeM_cons.
  unfold lookupBody. run. reflexivity.
Qed.

(** C6.  A batch whose search succeeds with no entity summary adds no
    property reference and no notice, makes no detail call, and the loop
    goes on with the remaining batches. *)
Theorem no_entity_found_is_skipped componentTypeId pv ref externalId l st log
    st1 rest :
  PropertyValueHistory.EntityPropertyReference pv = Some ref ->
  extractExternalId (EntityPropertyReference.ExternalIdProperty ref)
  = Returned externalId ->
  ListEntities (client s) (listEntitiesQuery (query l) externalId) st
  = ((Some (ListEntitiesOutput.Build []), None), st1) ->
  rangeM (lookupBody s componentTypeId) (Some pv :: rest) l (st, log)
  = rangeM (lookupBody s componentTypeId) rest
      (Locals (listEntitiesQuery (query l) externalId)
         (propertyReferences l) (failures l))
      (st1, (log ++ [CallListEntities
                       (listEntitiesQuery (query l) externalId)])%list).
Proof.
  intros Href Hext Hsearch. apply rangeM_cons.
  unfold lookupBody. run. reflexivity.
Qed.

(** The loop body when the search lists an entity and the detail call
    hands back an output: one reference is appended. *)
Lemma lookupBody_appends componentTypeId pv ref externalId l st log
    le searchErr summary others entityId st1 e detailErr st2 name :
  PropertyValueHistory.EntityPropertyReference pv = Some ref ->
  extractExternalId (EntityPropertyReference.ExternalIdProperty ref)
  = Returned externalId ->
  ListEntities (client s) (listEntitiesQuery (query l) externalId) st
  = ((Some le, searchErr), st1) ->
  ListEntitiesOutput.EntitySummaries le = Some summary :: others ->
  EntitySummary.EntityId summary = Some entityId ->
  GetEntity (client s)
    (withEntityId (listEntitiesQuery (query l) externalId) entityId) st1
  = ((Some e, detailErr), st2) ->
  scanComponents componentTypeId externalId (GetEntityOutput.Components e)
  = Returned name ->
  lookupBody s componentTypeId (Some pv) l (st, log)
  = Returned
      (Locals
         (withEntityId (listEntitiesQuery (query l) externalId) entityId)
         (propertyReferences l ++
            [PropertyReference.Build
               (PropertyValueHistory.Values pv)
               (Some (EntityPropertyReference.Build
                        (Some name) (Some entityId)
                        (EntityPropertyReference.ExternalIdProperty ref)
                        (EntityPropertyReference.PropertyName ref)))
               (EntitySummary.EntityName summary)])%list
         (appendFailure (appendFailure (failures l) searchErr) detailErr),
       (st2,
        (log ++ [CallListEntities (listEntitiesQuery (query l) externalId)]
             ++ [CallGetEntity
                   (withEntityId (listEntitiesQuery (query l) externalId)
                      entityId)])%list)).
Proof.
  intros Href Hext Hsearch Hsummaries Hid Hdetail Hscan.
  unfold lookupBody. run. rewrite Hsummaries. run.
  rewrite <- Hid, <- app_assoc. reflexivity.
Qed.

(** C5, amended.  Whenever the loop body returns, the search returned an
    output; if it lists no entity the property references are unchanged,
    and otherwise exactly one reference is appended, whether or not a
    component matches.  That reference's entity id and entity name are
    those of the first entity summary, its values, external-id mapping
    and property name are copied from the batch's own reference, and its
    component name is the result of the component scan, the empty string
    when no component matches. *)
Theorem appended_reference_origin componentTypeId propertyValue l st log l' w' :
  lookupBody s componentTypeId propertyValue l (st, log) = Returned (l', w') ->
  exists pv ref externalId le searchErr st1,
    propertyValue = Some pv /\
    PropertyValueHistory.EntityPropertyReference pv = Some ref /\
    extractExternalId (EntityPropertyReference.ExternalIdProperty ref)
    = Returned externalId /\
    ListEntities (client s) (listEntitiesQuery (query l) externalId) st
    = ((Some le, searchErr), st1) /\
    ((ListEntitiesOutput.EntitySummaries le = [] /\
      propertyReferences l' = propertyReferences l) \/
     (exists summary others entityId e detailErr st2 name,
         ListEntitiesOutput.EntitySummaries le = Some summary :: others /\
         EntitySummary.EntityId summary = Some entityId /\
         GetEntity (client s)
           (withEntityId (listEntitiesQuery (query l) externalId) entityId) st1
         = ((Some e, detailErr), st2) /\
         scanComponents componentTypeId externalId (GetEntityOutput.Components e)
         = Returned name /\
         name = componentNameSpec componentTypeId externalId
                  (GetEntityOutput.Components e) /\
         propertyReferences l'
         = (propertyReferences l ++
              [PropertyReference.Build
                 (PropertyValueHistory.Values pv)
                 (Some (EntityPropertyReference.Build
                          (Some name) (Some entityId)
                          (EntityPropertyReference.ExternalIdProperty ref)
                          (EntityPropertyReference.PropertyName ref)))
                 (EntitySummary.EntityName summary)])%list)).
Proof.
  unfold lookupBody, bindM, lift, invoke, ret. cbn [fst snd]. intros H.
  destruct propertyValue as [pv|]; [| discriminate H]. cbn [deref] in H.
  destruct (PropertyValueHistory.EntityPropertyReference pv) as [ref|] eqn:Href;
    [| discriminate H].
  cbn [deref fst snd] in H.
  destruct (extractExternalId (EntityPropertyReference.ExternalIdProperty ref))
    as [externalId|] eqn:Hext; [| discriminate H].
  cbn [deref fst snd] in H.
  destruct (ListEntities (client s) (listEntitiesQuery (query l) externalId) st)
    as [[le searchErr] st1] eqn:Hsearch.
  destruct le as [le|]; [| discriminate H]. cbn [deref] in H.
  exists pv, ref, externalId, le, searchErr, st1.
  do 4 (split; [first [reflexivity | assumption] |]).
  destruct (ListEntitiesOutput.EntitySummaries le) as [|first others] eqn:Hsummaries.
  - left. split; [reflexivity |]. now injection H as <- _.
  - right. destruct first as [summary|]; [| discriminate H]. cbn [deref] in H.
    destruct (EntitySummary.EntityId summary) as [entityId|] eqn:Hid;
      [| discriminate H].
    cbn [deref fst snd] in H.
    destruct (GetEntity (client s)
                (withEntityId (listEntitiesQuery (query l) externalId) entityId)
                st1)
      as [[e detailErr] st2] eqn:Hdetail.
    destruct e as [e|]; [| discriminate H]. cbn [deref] in H.
    destruct (scanComponents componentTypeId externalId
                (GetEntityOutput.Components e)) as [name|] eqn:Hscan;
      [| discriminate H].
    injection H as <- _.
    exists summary, others, entityId, e, detailErr, st2, name.
    do 4 (split; [first [reflexivity | assumption] |]).
    split; [now apply scanComponents_returns | reflexivity].
Qed.

(** C3.  The end-to-end scenario: one batch with external id ext-42 and
    property temperature, a search for ext-42 that lists entity e1 named
    Boiler, and a detail call for e1 that returns the single component
    tempSensor, of the query's component type, whose one property is
    flagged as external id with string value ext-42.  The resolver
    returns one property reference (entity id e1, component name
    tempSensor, entity name Boiler, property name temperature), no
    notice and a nil error. *)
Theorem end_to_end_resolution query st log st1 st2 st3
    values componentName entityId key componentKey propertyKey :
  GetPropertyValueHistory (client s) query st
  = ((Some (GetPropertyValueHistoryOutput.Build
              [Some (PropertyValueHistory.Build
                       (Some (EntityPropertyReference.Build
                                componentName entityId
                                [(key, Some "ext-42")] (Some "temperature")))
                       values)]),
      None), st1) ->
  ListEntities (client s) (listEntitiesQuery query "ext-42") st1
  = ((Some (ListEntitiesOutput.Build
              [Some (EntitySummary.Build (Some "e1") (Some "Boiler"))]),
      None), st2) ->
  GetEntity (client s) (withEntityId (listEntitiesQuery query "ext-42") "e1") st2
  = ((Some (GetEntityOutput.Build
              [(componentKey,
                Some (ComponentResponse.Build
                        (Some "tempSensor")
                        (Some (TwinMakerQuery.ComponentTypeId query))
                        [(propertyKey,
                          Some (PropertyResponse.Build
                                  (Some (PropertyDefinitionResponse.Build
                                           (Some true)))
                                  (Some (DataValue.Build
                                           (Some "ext-42")))))]))]),
      None), st3) ->
  GetComponentHistoryWithLookup s query (st, log)
  = Returned
      (([PropertyReference.Build values
           (Some (EntityPropertyReference.Build
                    (Some "tempSensor") (Some "e1")
                    [(key, Some "ext-42")] (Some "temperature")))
           (Some "Boiler")],
        [], None),
       (st3,
        (log ++ [CallGetPropertyValueHistory query]
             ++ [CallListEntities (listEntitiesQuery query "ext-42")]
             ++ [CallGetEntity
                   (withEntityId (listEntitiesQuery query "ext-42") "e1")])%list)).
Proof.
  intros Hhistory Hsearch Hdetail.
  unfold GetComponentHistoryWithLookup. run.
  cbn [GetPropertyValueHistoryOutput.PropertyValues length Nat.ltb Nat.leb].
  erewrite bindM_Returned.
  2: { erewrite rangeM_cons; [reflexivity |].
       eapply lookupBody_appends with (name := "tempSensor");
         [ reflexivity | reflexivity | eassumption | reflexivity
         | reflexivity | eassumption | ].
       unfold scanComponents. simpl. now rewrite String.eqb_refl. }
  unfold ret. cbn [propertyReferences failures appendFailure app].
  rewrite <- !app_assoc. reflexivity.
Qed.

(** C1, as the code runs it.  The history call succeeds with a sequence of
    batches; the batches before one of them are processed, and the search
    for that one fails the way a Go call fails, with a nil output next to
    the error.  The warning is recorded, but the body goes on to read
    [le.EntitySummaries]: the resolver panics, returns neither references
    nor notices, and leaves the remaining batches unprocessed. *)
Theorem failed_search_aborts_the_lookup q st log result st0
    before pv after l1 st1 log1 ref externalId err st2 :
  GetPropertyValueHistory (client s) q st = ((Some result, None), st0) ->
  GetPropertyValueHistoryOutput.PropertyValues result
  = (before ++ Some pv :: after)%list ->
  rangeM (lookupBody s (TwinMakerQuery.ComponentTypeId q)) before
    (Locals q [] []) (st0, (log ++ [CallGetPropertyValueHistory q])%list)
  = Returned (l1, (st1, log1)) ->
  PropertyValueHistory.EntityPropertyReference pv = Some ref ->
  extractExternalId (EntityPropertyReference.ExternalIdProperty ref)
  = Returned externalId ->
  ListEntities (client s) (listEntitiesQuery (query l1) externalId) st1
  = ((None, Some err), st2) ->
  GetComponentHistoryWithLookup s q (st, log) = Panicked.
Proof.
  intros Hhistory Hbatches Hbefore Href Hext Hsearch.
  unfold GetComponentHistoryWithLookup. run. rewrite Hbatches.
  destruct (0 <? length (before ++ Some pv :: after))%nat eqn:Hlen.
  - apply bindM_Panicked. rewrite rangeM_app.
    erewrite bindM_Returned by exact Hbefore.
    apply rangeM_Panicked.
    now apply (search_error_nil_output _ _ ref externalId _ _ _ err st2).
  - rewrite length_app in Hlen. simpl in Hlen.
    apply Nat.ltb_ge in Hlen. lia.
Qed.

(** C4, amended.  The history call succeeds; the batches before one of
    them are processed; for that batch the search lists an entity, the
    detail call succeeds, and the scan of its components meets no nil
    pointer.  Then the scan returns the name the specification describes
    for the component type the query came with: that of the first
    component of that type if one of its properties is flagged as external
    id with the batch's external id as string value, and the empty string
    if no component has that type or no such property is found.  The
    reference with that name is appended, the detail step records no
    notice, and the resolver goes on with the remaining batches. *)
Theorem component_name_follows_the_scan q st log output st0
    before pv after l1 st1 log1 ref externalId le searchErr summary others
    entityId st2 e st3 :
  GetPropertyValueHistory (client s) q st = ((Some output, None), st0) ->
  GetPropertyValueHistoryOutput.PropertyValues output
  = (before ++ Some pv :: after)%list ->
  rangeM (lookupBody s (TwinMakerQuery.ComponentTypeId q)) before
    (Locals q [] []) (st0, (log ++ [CallGetPropertyValueHistory q])%list)
  = Returned (l1, (st1, log1)) ->
  PropertyValueHistory.EntityPropertyReference pv = Some ref ->
  extractExternalId (EntityPropertyReference.ExternalIdProperty ref)
  = Returned externalId ->
  ListEntities (client s) (listEntitiesQuery (query l1) externalId) st1
  = ((Some le, searchErr), st2) ->
  ListEntitiesOutput.EntitySummaries le = Some summary :: others ->
  EntitySummary.EntityId summary = Some entityId ->
  GetEntity (client s)
    (withEntityId (listEntitiesQuery (query l1) externalId) entityId) st2
  = ((Some e, None), st3) ->
  scanComponents (TwinMakerQuery.ComponentTypeId q) externalId
    (GetEntityOutput.Components e) <> Panicked ->
  let components := GetEntityOutput.Components e in
  let name :=
    componentNameSpec (TwinMakerQuery.ComponentTypeId q) externalId components in
  let reference :=
    PropertyReference.Build
      (PropertyValueHistory.Values pv)
      (Some (EntityPropertyReference.Build
               (Some name) (Some entityId)
               (EntityPropertyReference.ExternalIdProperty ref)
               (EntityPropertyReference.PropertyName ref)))
      (EntitySummary.EntityName summary) in
  let l2 :=
    Locals (withEntityId (listEntitiesQuery (query l1) externalId) entityId)
      (propertyReferences l1 ++ [reference])%list
      (appendFailure (failures l1) searchErr) in
  let w2 :=
    (st3,
     (log1 ++ [CallListEntities (listEntitiesQuery (query l1) externalId)]
           ++ [CallGetEntity
                 (withEntityId (listEntitiesQuery (query l1) externalId)
                    entityId)])%list) in
  scanComponents (TwinMakerQuery.ComponentTypeId q) externalId components
  = Returned name /\
  GetComponentHistoryWithLookup s q (st, log)
  = bindM (rangeM (lookupBody s (TwinMakerQuery.ComponentTypeId q)) after l2)
      (fun l => ret (propertyReferences l, failures l, None)) w2 /\
  (after = [] ->
   GetComponentHistoryWithLookup s q (st, log)
   = Returned (((propertyReferences l1 ++ [reference])%list,
                appendFailure (failures l1) searchErr, None), w2)) /\
  (List.find (hasType (TwinMakerQuery.ComponentTypeId q)) components = None ->
   name = "") /\
  (forall key component,
      List.find (hasType (TwinMakerQuery.ComponentTypeId q)) components
      = Some (key, Some component) ->
      List.existsb (carriesExternalId externalId)
        (ComponentResponse.Properties component) = false ->
      name = "").
Proof.
  intros Hhistory Hbatches Hbefore Href Hext Hsearch Hsummaries Hid Hdetail
    Hreads components name reference l2 w2.
  assert (Hscan : scanComponents (TwinMakerQuery.ComponentTypeId q) externalId
                    components = Returned name).
  { destruct (scanComponents (TwinMakerQuery.ComponentTypeId q) externalId
                components) as [found|] eqn:Hfound; [| now contradiction Hreads].
    now rewrite (scanComponents_returns _ _ _ _ Hfound). }
  assert (Hrun : GetComponentHistoryWithLookup s q (st, log)
                 = bindM (rangeM (lookupBody s (TwinMakerQuery.ComponentTypeId q))
                            after l2)
                     (fun l => ret (propertyReferences l, failures l, None)) w2).
  { unfold GetComponentHistoryWithLookup. run. rewrite Hbatches.
    destruct (0 <? length (before ++ Some pv :: after))%nat eqn:Hlen.
    - unfold bindM.
      rewrite (rangeM_split _ before (Some pv) after _ _ _ _ l2 w2 Hbefore);
        [reflexivity |].
      apply (lookupBody_appends _ _ _ _ _ _ _ _ _ _ _ _ _ _ None _ _
               Href Hext Hsearch Hsummaries Hid Hdetail Hscan).
    - rewrite length_app in Hlen. simpl in Hlen.
      apply Nat.ltb_ge in Hlen. lia. }
  split; [exact Hscan |]. split; [exact Hrun |]. split; [| split].
  - intros ->. rewrite Hrun. reflexivity.
  - intros Hnone. unfold name, componentNameSpec. now rewrite Hnone.
  - intros key component Hfind Hnot. unfold name, componentNameSpec.
    now rewrite Hfind, Hnot.
Qed.

End LookupProperties.

(** ** Concrete runs *)

Lemma history_error_is_fatal_witness :
  GetComponentHistoryWithLookup noHistory sensorQuery (0, [])
  = Returned (([], [], Some historyFailed),
              (1, [CallGetPropertyValueHistory sensorQuery])).
Proof.
  apply (history_error_is_fatal noHistory sensorQuery 0 [] None historyFailed 1).
  reflexivity.
Defined.

Lemma empty_history_calls_nothing_else_witness :
  GetComponentHistoryWithLookup emptyHistory sensorQuery (0, [])
  = Returned (([], [], None), (1, [CallGetPropertyValueHistory sensorQuery])).
Proof.
  apply (empty_history_calls_nothing_else emptyHistory sensorQuery 0 []
           (GetPropertyValueHistoryOutput.Build []) 1);
    reflexivity.
Defined.

Lemma no_entity_found_is_skipped_witness :
  rangeM (lookupBody nothingFound "com.example.sensor")
    [boilerBatch; batch "ext-43" "pressure" "3"]
    (Locals sensorQuery [] []) (1, [])
  = rangeM (lookupBody nothingFound "com.example.sensor")
      [batch "ext-43" "pressure" "3"]
      (Locals (listEntitiesQuery sensorQuery "ext-42") [] [])
      (2, [CallListEntities (listEntitiesQuery sensorQuery "ext-42")]).
Proof.
  apply (no_entity_found_is_skipped nothingFound "com.example.sensor"
           (PropertyValueHistory.Build
              (Some (EntityPropertyReference.Build None None
                       [("alarm_key", Some "ext-42")] (Some "temperature")))
              [Some "21.5"])
           (EntityPropertyReference.Build None None
              [("alarm_key", Some "ext-42")] (Some "temperature"))
           "ext-42" (Locals sensorQuery [] []) 1 [] 2);
    reflexivity.
Defined.

(** C4, as stated, fails: the detail call succeeds and the entity's one
    component has the queried type, but its flagged property carries no
    value.  No flagged property's value matches, yet no reference with an
    empty component name is appended: reading the value panics. *)
Lemma flagged_property_without_value_panics :
  GetEntity (client flaggedWithoutValue)
    (withEntityId (listEntitiesQuery sensorQuery "ext-42") "e1") 2
  = ((Some (GetEntityOutput.Build [valueless]), None), 3) /\
  List.find (hasType (TwinMakerQuery.ComponentTypeId sensorQuery)) [valueless]
  = Some valueless /\
  List.existsb (carriesExternalId "ext-42")
    [("alarm_key",
      Some (PropertyResponse.Build
              (Some (PropertyDefinitionResponse.Build (Some true))) None))]
  = false /\
  GetComponentHistoryWithLookup flaggedWithoutValue sensorQuery (0, []) = Panicked.
Proof. repeat split. Qed.

Lemma component_name_follows_the_scan_witness :
  GetComponentHistoryWithLookup boiler sensorQuery (0, [])
  = Returned
      (([boilerReference "tempSensor"], [], None),
       (3, [CallGetPropertyValueHistory sensorQuery;
            CallListEntities (listEntitiesQuery sensorQuery "ext-42");
            CallGetEntity
              (withEntityId (listEntitiesQuery sensorQuery "ext-42") "e1")])).
Proof.
  refine (proj1 (proj2 (proj2
            (component_name_follows_the_scan boiler sensorQuery 0 []
               (GetPropertyValueHistoryOutput.Build [boilerBatch]) 1
               []
               (PropertyValueHistory.Build
                  (Some (EntityPropertyReference.Build None None
                           [("alarm_key", Some "ext-42")] (Some "temperature")))
                  [Some "21.5"])
               []
               (Locals sensorQuery [] []) 1
               [CallGetPropertyValueHistory sensorQuery]
               (EntityPropertyReference.Build None None
                  [("alarm_key", Some "ext-42")] (Some "temperature"))
               "ext-42"
               (ListEntitiesOutput.Build
                  [Some (EntitySummary.Build (Some "e1") (Some "Boiler"))])
               None (EntitySummary.Build (Some "e1") (Some "Boiler")) []
               "e1" 2
               (GetEntityOutput.Build
                  [sensor "tempSensor" "com.example.sensor" "ext-42"])
               3
               eq_refl eq_refl eq_refl eq_refl eq_refl eq_refl eq_refl eq_refl
               eq_refl _))) eq_refl).
  discriminate.
Defined.

(** C5, as stated, fails: the entity found for ext-42 has no component of
    the query's type, and the batch is not dropped; its reference is
    returned with an empty component name, and with the external-id mapping
    of the batch itself. *)
Lemma unmatched_batch_is_not_dropped :
  List.find (hasType (TwinMakerQuery.ComponentTypeId sensorQuery))
    [sensor "pump" "com.example.pump" "ext-42"] = None /\
  returned (GetComponentHistoryWithLookup otherType sensorQuery (0, []))
  = Returned ([boilerReference ""], [], None) /\
  returned (GetComponentHistoryWithLookup otherType sensorQuery (0, []))
  <> Returned ([], [], None).
Proof.
  repeat split; try reflexivity. discriminate.
Qed.

Lemma appended_reference_origin_witness :
  exists pv ref externalId le searchErr st1,
    boilerBatch = Some pv /\
    PropertyValueHistory.EntityPropertyReference pv = Some ref /\
    extractExternalId (EntityPropertyReference.ExternalIdProperty ref)
    = Returned externalId /\
    ListEntities (client otherType) (listEntitiesQuery sensorQuery externalId) 1
    = ((Some le, searchErr), st1) /\
    ((ListEntitiesOutput.EntitySummaries le = [] /\
      [boilerReference ""] = []) \/
     (exists summary others entityId e detailErr st2 name,
         ListEntitiesOutput.EntitySummaries le = Some summary :: others /\
         EntitySummary.EntityId summary = Some entityId /\
         GetEntity (client otherType)
           (withEntityId (listEntitiesQuery sensorQuery externalId) entityId) st1
         = ((Some e, detailErr), st2) /\
         scanComponents "com.example.sensor" externalId
           (GetEntityOutput.Components e) = Returned name /\
         name = componentNameSpec "com.example.sensor" externalId
                  (GetEntityOutput.Components e) /\
         [boilerReference ""]
         = ([] ++
              [PropertyReference.Build
                 (PropertyValueHistory.Values pv)
                 (Some (EntityPropertyReference.Build
                          (Some name) (Some entityId)
                          (EntityPropertyReference.ExternalIdProperty ref)
                          (EntityPropertyReference.PropertyName ref)))
                 (EntitySummary.EntityName summary)])%list)).
Proof.
  apply (appended_reference_origin otherType "com.example.sensor" boilerBatch
           (Locals sensorQuery [] []) 1 []
           (Locals (withEntityId (listEntitiesQuery sensorQuery "ext-42") "e1")
              [boilerReference ""] [])
           (3, [CallListEntities (listEntitiesQuery sensorQuery "ext-42");
                CallGetEntity
                  (withEntityId (listEntitiesQuery sensorQuery "ext-42") "e1")])).
  reflexivity.
Defined.

Lemma end_to_end_resolution_witness :
  GetComponentHistoryWithLookup boiler sensorQuery (0, [])
  = Returned
      (([boilerReference "tempSensor"], [], None),
       (3, [CallGetPropertyValueHistory sensorQuery;
            CallListEntities (listEntitiesQuery sensorQuery "ext-42");
            CallGetEntity
              (withEntityId (listEntitiesQuery sensorQuery "ext-42") "e1")])).
Proof.
  apply (end_to_end_resolution boiler sensorQuery 0 [] 1 2 3
           [Some "21.5"] None None "alarm_key" "tempSensor" "alarm_key");
    reflexivity.
Defined.

(** Three batches, the search failing for the second one only: the run
    panics after the first batch has been resolved. *)
Lemma failed_search_aborts_the_lookup_witness :
  GetComponentHistoryWithLookup secondSearchFails sensorQuery (0, []) = Panicked.
Proof.
  eapply (failed_search_aborts_the_lookup secondSearchFails sensorQuery 0 []
            (GetPropertyValueHistoryOutput.Build
               [batch "x1" "temperature" "1"; batch "x2" "temperature" "2";
                batch "x3" "temperature" "3"])
            1 [batch "x1" "temperature" "1"]
            (PropertyValueHistory.Build
               (Some (EntityPropertyReference.Build None None
                        [("alarm_key", Some "x2")] (Some "temperature")))
               [Some "2"])
            [batch "x3" "temperature" "3"]
            (Locals (withEntityId (listEntitiesQuery sensorQuery "x1") "x1")
               [PropertyReference.Build [Some "1"]
                  (Some (EntityPropertyReference.Build
                           (Some "tempSensor") (Some "x1")
                           [("alarm_key", Some "x1")] (Some "temperature")))
                  (Some "Boiler")]
               [])
            3
            [CallGetPropertyValueHistory sensorQuery;
             CallListEntities (listEntitiesQuery sensorQuery "x1");
             CallGetEntity (withEntityId (listEntitiesQuery sensorQuery "x1") "x1")]
            (EntityPropertyReference.Build None None
               [("alarm_key", Some "x2")] (Some "temperature"))
            "x2" searchFailed 4);
    reflexivity.
Defined.

Example failed_search_run :
  returned (GetComponentHistoryWithLookup secondSearchFails sensorQuery (0, []))
  = Panicked.
Proof. reflexivity. Qed.

(** When the failed search hands back an output that lists an entity, the
    detail call is made for the failed batch and its reference appended. *)
Example failed_search_with_output_is_resolved :
  returned (GetComponentHistoryWithLookup secondSearchFailsWithOutput
              sensorQuery (0, []))
  = Returned
      ([PropertyReference.Build [Some "1"]
          (Some (EntityPropertyReference.Build (Some "tempSensor") (Some "x1")
                   [("alarm_key", Some "x1")] (Some "temperature")))
          (Some "Boiler");
        PropertyReference.Build [Some "2"]
          (Some (EntityPropertyReference.Build (Some "tempSensor") (Some "x2")
                   [("alarm_key", Some "x2")] (Some "temperature")))
          (Some "Boiler");
        PropertyReference.Build [Some "3"]
          (Some (EntityPropertyReference.Build (Some "tempSensor") (Some "x3")
                   [("alarm_key", Some "x3")] (Some "temperature")))
          (Some "Boiler")],
       [Notice.Build Notice.NoticeSeverityWarning "ListEntities: request timed out"],
       None).
Proof. reflexivity. Qed.

(** ** Access-policy document *)

Section PolicyProperties.

Variable Template : Type.
Variable Compact : string -> string + error.
Variable Parse : string -> Template + error.
Variable Execute : Template -> Go.map (option string) -> string * option error.

Lemma LoadPolicy_nil_workspace :
  LoadPolicy Template Compact Parse Execute None = Panicked.
Proof. reflexivity. Qed.

(** C9.  [LoadPolicy] compacts the template before anything is
    substituted: a document it returns is what executing the template
    parsed from the compacted text wrote.  When the substitution, the
    execution of the template, reports an error, [LoadPolicy] returns the
    empty string and that error instead of a document; an error of the
    compaction is returned the same way. *)
Theorem LoadPolicy_compacts_then_substitutes (workspace : GetWorkspaceOutput.t) :
  (forall document err,
      LoadPolicy Template Compact Parse Execute (Some workspace)
      = Returned (document, err) ->
      (exists compactErr,
          Compact policyTemplate = inr compactErr /\
          document = "" /\ err = Some compactErr) \/
      (exists compacted t written,
          Compact policyTemplate = inl compacted /\
          Parse compacted = inl t /\
          Execute t (policyData workspace) = (written, err) /\
          document = match err with Some _ => "" | None => written end)) /\
  (forall err,
      Compact policyTemplate = inr err ->
      LoadPolicy Template Compact Parse Execute (Some workspace)
      = Returned ("", Some err)) /\
  (forall compacted t written err,
      Compact policyTemplate = inl compacted ->
      Parse compacted = inl t ->
      Execute t (policyData workspace) = (written, Some err) ->
      LoadPolicy Template Compact Parse Execute (Some workspace)
      = Returned ("", Some err)) /\
  (forall compacted t document,
      Compact policyTemplate = inl compacted ->
      Parse compacted = inl t ->
      Execute t (policyData workspace) = (document, None) ->
      LoadPolicy Template Compact Parse Execute (Some workspace)
      = Returned (document, None)).
Proof.
  unfold LoadPolicy. cbn [deref Go.bind]. fold (policyData workspace).
  repeat split.
  - intros document err H.
    destruct (Compact policyTemplate) as [compacted | compactErr].
    + right.
      destruct (Parse compacted) as [t | parseErr] eqn:Hparse;
        [| discriminate H].
      cbn [Must Go.bind] in H.
      destruct (Execute t (policyData workspace)) as [written [e |]] eqn:Hexec;
        injection H as <- <-; exists compacted, t, written; now repeat split.
    + left. injection H as <- <-. now exists compactErr.
  - now intros err ->.
  - intros compacted t written err -> ->. cbn [Must Go.bind]. now intros ->.
  - intros compacted t document -> ->. cbn [Must Go.bind]. now intros ->.
Qed.

End PolicyProperties.

(** The template is compacted, parsed and filled in for [demoWorkspace]:
    the document has no white space left and names the workspace's
    resources.  With an execution that fails, the bytes already written
    are not returned. *)
Lemma LoadPolicy_compacts_then_substitutes_witness :
  LoadPolicy (list node) compactJSON parseTemplate executeTemplate
    (Some demoWorkspace)
  = Returned (demoPolicy, None) /\
  List.existsb isSpace (list_ascii_of_string demoPolicy) = false /\
  List.existsb isSpace (list_ascii_of_string policyTemplate) = true /\
  LoadPolicy (list node) compactJSON parseTemplate failingExecute
    (Some demoWorkspace)
  = Returned ("", Some (Go.New "template: policy:1:14: executing policy: write failed")).
Proof.
  split; [| split; [| split]].
  - eapply (proj2 (proj2 (proj2
              (LoadPolicy_compacts_then_substitutes (list node) compactJSON
                 parseTemplate executeTemplate demoWorkspace))));
      vm_compute; reflexivity.
  - vm_compute. reflexivity.
  - vm_compute. reflexivity.
  - eapply (proj1 (proj2 (proj2
              (LoadPolicy_compacts_then_substitutes (list node) compactJSON
                 parseTemplate failingExecute demoWorkspace))));
      vm_compute; reflexivity.
Defined.

(** * Further properties *)

(** ** What a run of the loop leaves behind *)

Section LoopInvariants.

Context {W V R : Type}.
Variable s : twinMakerHandler W V R.

(** Every way the loop body can return. *)
Lemma lookupBody_returns componentTypeId propertyValue l st log l' w' :
  lookupBody s componentTypeId propertyValue l (st, log) = Returned (l', w') ->
  exists pv ref externalId le searchErr st1,
    propertyValue = Some pv /\
    PropertyValueHistory.EntityPropertyReference pv = Some ref /\
    extractExternalId (EntityPropertyReference.ExternalIdProperty ref)
    = Returned externalId /\
    ListEntities (client s) (listEntitiesQuery (query l) externalId) st
    = ((Some le, searchErr), st1) /\
    ((ListEntitiesOutput.EntitySummaries le = [] /\
      l' = Locals (listEntitiesQuery (query l) externalId)
             (propertyReferences l) (appendFailure (failures l) searchErr) /\
      w' = (st1, (log ++ [CallListEntities
                            (listEntitiesQuery (query l) externalId)])%list)) \/
     (exists summary others entityId e detailErr st2 name,
         ListEntitiesOutput.EntitySummaries le = Some summary :: others /\
         EntitySummary.EntityId summary = Some entityId /\
         GetEntity (client s)
           (withEntityId (listEntitiesQuery (query l) externalId) entityId) st1
         = ((Some e, detailErr), st2) /\
         scanComponents componentTypeId externalId (GetEntityOutput.Components e)
         = Returned name /\
         l' = Locals
                (withEntityId (listEntitiesQuery (query l) externalId) entityId)
                (propertyReferences l ++
                   [PropertyReference.Build
                      (PropertyValueHistory.Values pv)
                      (Some (EntityPropertyReference.Build
                               (Some name) (Some entityId)
                               (EntityPropertyReference.ExternalIdProperty ref)
                               (EntityPropertyReference.PropertyName ref)))
                      (EntitySummary.EntityName summary)])%list
                (appendFailure (appendFailure (failures l) searchErr) detailErr) /\
         w' = (st2,
               (log ++ [CallListEntities (listEntitiesQuery (query l) externalId)]
                    ++ [CallGetEntity
                          (withEntityId (listEntitiesQuery (query l) externalId)
                             entityId)])%list))).
Proof.
  unfold lookupBody, bindM, lift, invoke, ret. cbn [fst snd]. intros H.
  destruct propertyValue as [pv|]; [| discriminate H]. cbn [deref] in H.
  destruct (PropertyValueHistory.EntityPropertyReference pv) as [ref|] eqn:Href;
    [| discriminate H].
  cbn [deref fst snd] in H.
  destruct (extractExternalId (EntityPropertyReference.ExternalIdProperty ref))
    as [externalId|] eqn:Hext; [| discriminate H].
  cbn [deref fst snd] in H.
  destruct (ListEntities (client s) (listEntitiesQuery (query l) externalId) st)
    as [[le searchErr] st1] eqn:Hsearch.
  destruct le as [le|]; [| discriminate H]. cbn [deref] in H.
  exists pv, ref, externalId, le, searchErr, st1.
  do 4 (split; [first [reflexivity | assumption] |]).
  destruct (ListEntitiesOutput.EntitySummaries le) as [|first others] eqn:Hsummaries.
  - left. injection H as <- <-. now repeat split.
  - right. destruct first as [summary|]; [| discriminate H]. cbn [deref] in H.
    destruct (EntitySummary.EntityId summary) as [entityId|] eqn:Hid;
      [| discriminate H].
    cbn [deref fst snd] in H.
    destruct (GetEntity (client s)
                (withEntityId (listEntitiesQuery (query l) externalId) entityId)
                st1)
      as [[e detailErr] st2] eqn:Hdetail.
    destruct e as [e|]; [| discriminate H]. cbn [deref] in H.
    destruct (scanComponents componentTypeId externalId
                (GetEntityOutput.Components e)) as [name|] eqn:Hscan;
      [| discriminate H].
    injection H as <- <-.
    exists summary, others, entityId, e, detailErr, st2, name.
    do 4 (split; [first [reflexivity | assumption] |]).
    split; [reflexivity |]. now rewrite <- app_assoc.
Qed.

Lemma appendFailure_adds (failures : list Notice.t) (err : option error) :
  exists added,
    appendFailure failures err = (failures ++ added)%list /\
    Forall isWarning added /\ length added <= 1.
Proof.
  destruct err as [e|]; simpl.
  - exists [warning e]. repeat split; [| simpl; lia].
    constructor; [reflexivity | constructor].
  - exists []. rewrite app_nil_r. repeat split; [constructor | simpl; lia].
Qed.

(** What a run of the whole loop adds to the references, the notices and
    the call log it started with. *)
Lemma loop_returns componentTypeId batches :
  forall l st log l' st' log',
    rangeM (lookupBody s componentTypeId) batches l (st, log)
    = Returned (l', (st', log')) ->
    exists newReferences newNotices calls,
      propertyReferences l' = (propertyReferences l ++ newReferences)%list /\
      failures l' = (failures l ++ newNotices)%list /\
      log' = (log ++ calls)%list /\
      inBatchOrder batches newReferences /\
      Forall isWarning newNotices /\
      length newNotices <= length calls /\
      Forall (lookupCall (TwinMakerQuery.Rest (query l))) calls /\
      length (List.filter isSearch calls) = length batches /\
      length (List.filter isDetail calls) = length newReferences /\
      TwinMakerQuery.Rest (query l') = TwinMakerQuery.Rest (query l) /\
      Forall (fun b => exists pv ref,
                  b = Some pv /\
                  PropertyValueHistory.EntityPropertyReference pv = Some ref)
             batches.
Proof.
  induction batches as [|b bs IH]; intros l st log l' st' log' H.
  - injection H as <- <- <-. exists [], [], [].
    rewrite !app_nil_r. repeat split; constructor.
  - simpl in H. unfold bindM in H.
    destruct (lookupBody s componentTypeId b l (st, log))
      as [[l1 [st1 log1]]|] eqn:Hbody; [| discriminate H].
    apply lookupBody_returns in Hbody
      as (pv & ref & externalId & le & searchErr & st0 & -> & Href & Hext
          & Hsearch & Hcases).
    destruct (IH _ _ _ _ _ _ H)
      as (refs & notices & calls & Hrefs & Hnotices & Hlog & Horder & Hwarn
          & Hcount & Hcalls & Hsearches & Hdetails & Hrest & Hbatches).
    destruct (appendFailure_adds (failures l) searchErr)
      as (added1 & Hadd1 & Hwarn1 & Hlen1).
    destruct Hcases as [(Hnone & -> & Hw) | Hsome].
    + injection Hw as -> ->. simpl in *.
      exists refs, (added1 ++ notices)%list,
        (CallListEntities (listEntitiesQuery (query l) externalId) :: calls).
      rewrite Hadd1 in Hnotices. rewrite <- app_assoc in Hnotices, Hlog.
      repeat split; try assumption.
      * now constructor.
      * now apply Forall_app.
      * rewrite length_app. simpl. lia.
      * constructor; [| assumption]. simpl. repeat split. now exists externalId.
      * simpl. now f_equal.
      * constructor; [| assumption]. now exists pv, ref.
    + destruct Hsome
        as (summary & others & entityId & e & detailErr & st2 & name & Hsummaries
            & Hid & Hdetail & Hscan & -> & Hw).
      injection Hw as -> ->. simpl in *.
      destruct (appendFailure_adds (failures l ++ added1)%list detailErr)
        as (added2 & Hadd2 & Hwarn2 & Hlen2).
      rewrite Hadd1, Hadd2 in Hnotices.
      rewrite <- !app_assoc in Hnotices, Hlog, Hrefs. simpl in Hlog, Hrefs.
      eexists (_ :: refs), (added1 ++ added2 ++ notices)%list,
        (CallListEntities (listEntitiesQuery (query l) externalId)
         :: CallGetEntity
              (withEntityId (listEntitiesQuery (query l) externalId) entityId)
         :: calls).
      repeat split; try eassumption.
      * rewrite Hnotices. now rewrite <- !app_assoc.
      * constructor; [| assumption]. split; [reflexivity |].
        now exists ref, name, entityId.
      * apply Forall_app. split; [assumption |]. now apply Forall_app.
      * rewrite !length_app. simpl. lia.
      * constructor; [| constructor; [| assumption]]; simpl; repeat split;
          now exists externalId.
      * simpl. now f_equal.
      * simpl. now f_equal.
      * constructor; [| assumption]. now exists pv, ref.
Qed.

Lemma inBatchOrder_length (batches : list (option (PropertyValueHistory.t V)))
    (prs : list (PropertyReference.t V)) :
  inBatchOrder batches prs -> length prs <= length batches.
Proof. induction 1; simpl; lia. Qed.

Lemma lookupCalls_split (rest : R) (calls : list (call R)) :
  Forall (lookupCall rest) calls ->
  length calls
  = length (List.filter isSearch calls) + length (List.filter isDetail calls).
Proof.
  induction 1 as [|c calls Hc _ IH]; [reflexivity |].
  destruct c; simpl in *; [contradiction | lia | lia].
Qed.

(** Every way the resolver can return. *)
Lemma resolver_returns q st log prs notices err st' log' :
  GetComponentHistoryWithLookup s q (st, log)
  = Returned ((prs, notices, err), (st', log')) ->
  exists result historyErr st0,
    GetPropertyValueHistory (client s) q st = ((result, historyErr), st0) /\
    err = historyErr /\
    ((historyErr <> None /\ prs = [] /\ notices = [] /\
      log' = (log ++ [CallGetPropertyValueHistory q])%list) \/
     (historyErr = None /\
      exists output calls,
        result = Some output /\
        log' = (log ++ CallGetPropertyValueHistory q :: calls)%list /\
        inBatchOrder (GetPropertyValueHistoryOutput.PropertyValues output) prs /\
        Forall isWarning notices /\
        length notices <= length calls /\
        Forall (lookupCall (TwinMakerQuery.Rest q)) calls /\
        length (List.filter isSearch calls)
        = length (GetPropertyValueHistoryOutput.PropertyValues output) /\
        length (List.filter isDetail calls) = length prs /\
        Forall (fun b => exists pv ref,
                    b = Some pv /\
                    PropertyValueHistory.EntityPropertyReference pv = Some ref)
               (GetPropertyValueHistoryOutput.PropertyValues output))).
Proof.
  unfold GetComponentHistoryWithLookup, bindM at 1, invoke. cbn [fst snd].
  destruct (GetPropertyValueHistory (client s) q st)
    as [[result historyErr] st0] eqn:Hhistory.
  intros H. exists result, historyErr, st0. split; [reflexivity |].
  destruct historyErr as [e|].
  - injection H as <- <- <- <- <-. split; [reflexivity |]. left.
    now repeat split.
  - unfold bindM at 1, lift in H. destruct result as [output|];
      [| discriminate H].
    cbn [deref] in H.
    destruct (GetPropertyValueHistoryOutput.PropertyValues output)
      as [|b bs] eqn:Hvalues.
    + injection H as <- <- <- <- <-. split; [reflexivity |]. right.
      split; [reflexivity |]. exists output, []. rewrite Hvalues.
      repeat split; constructor.
    + cbn [length Nat.ltb Nat.leb] in H. unfold bindM, ret in H.
      destruct (rangeM (lookupBody s (TwinMakerQuery.ComponentTypeId q))
                  (b :: bs) (Locals q [] [])
                  (st0, (log ++ [CallGetPropertyValueHistory q])%list))
        as [[l1 [st1 log1]]|] eqn:Hloop; [| discriminate H].
      injection H as <- <- <- <- <-. split; [reflexivity |]. right.
      split; [reflexivity |].
      apply loop_returns in Hloop
        as (refs & added & calls & Hrefs & Hnotices & Hlog & Horder & Hwarn
            & Hcount & Hcalls & Hsearches & Hdetails & _ & Hbatches).
      simpl in Hrefs, Hnotices, Hcalls.
      exists output, calls. rewrite Hvalues, Hrefs, Hnotices, Hlog, <- app_assoc.
      now repeat split.
Qed.

(** What the resolver returns after a successful history call. *)
Lemma resolver_returns_after_history q st log output st0 prs notices err st' log' :
  GetPropertyValueHistory (client s) q st = ((Some output, None), st0) ->
  GetComponentHistoryWithLookup s q (st, log)
  = Returned ((prs, notices, err), (st', log')) ->
  exists calls,
    log' = (log ++ CallGetPropertyValueHistory q :: calls)%list /\
    inBatchOrder (GetPropertyValueHistoryOutput.PropertyValues output) prs /\
    Forall isWarning notices /\
    length notices <= length calls /\
    Forall (lookupCall (TwinMakerQuery.Rest q)) calls /\
    length (List.filter isSearch calls)
    = length (GetPropertyValueHistoryOutput.PropertyValues output) /\
    length (List.filter isDetail calls) = length prs /\
    Forall (fun b => exists pv ref,
                b = Some pv /\
                PropertyValueHistory.EntityPropertyReference pv = Some ref)
           (GetPropertyValueHistoryOutput.PropertyValues output).
Proof.
  intros Hhistory Hrun.
  apply resolver_returns in Hrun
    as (result & historyErr & st1 & Hcall & _ & [(Herr & _) | (_ & Hloop)]);
    rewrite Hhistory in Hcall; injection Hcall as <- <- <-.
  - now contradiction Herr.
  - destruct Hloop as (output' & calls & [= <-] & Hrest). now exists calls.
Qed.

(** X1.  After a successful history call, the references returned answer
    batches of the history output one for one and in the output's order:
    each carries the values, the external-id mapping and the property name
    of its batch, no batch is answered twice, none out of turn. *)
Theorem references_follow_batch_order q st log output st0 prs notices err w' :
  GetPropertyValueHistory (client s) q st = ((Some output, None), st0) ->
  GetComponentHistoryWithLookup s q (st, log) = Returned ((prs, notices, err), w') ->
  inBatchOrder (GetPropertyValueHistoryOutput.PropertyValues output) prs /\
  length prs <= length (GetPropertyValueHistoryOutput.PropertyValues output).
Proof.
  intros Hhistory Hrun. destruct w' as [st' log'].
  destruct (resolver_returns_after_history _ _ _ _ _ _ _ _ _ _ Hhistory Hrun)
    as (calls & _ & Horder & _).
  split; [exact Horder | now apply inBatchOrder_length].
Qed.

(** X2.  Every notice returned has warning severity, and there are at most
    as many notices as search and detail calls made: no more than the
    batches plus the references returned, hence at most two per batch. *)
Theorem notices_are_warnings_one_per_call q st log output st0 prs notices err w' :
  GetPropertyValueHistory (client s) q st = ((Some output, None), st0) ->
  GetComponentHistoryWithLookup s q (st, log) = Returned ((prs, notices, err), w') ->
  Forall isWarning notices /\
  length notices
  <= length (GetPropertyValueHistoryOutput.PropertyValues output) + length prs /\
  length notices <= 2 * length (GetPropertyValueHistoryOutput.PropertyValues output).
Proof.
  intros Hhistory Hrun. destruct w' as [st' log'].
  destruct (resolver_returns_after_history _ _ _ _ _ _ _ _ _ _ Hhistory Hrun)
    as (calls & _ & Horder & Hwarn & Hcount & Hcalls & Hsearches & Hdetails & _).
  apply inBatchOrder_length in Horder.
  rewrite (lookupCalls_split _ _ Hcalls), Hsearches, Hdetails in Hcount.
  repeat split; [assumption | lia | lia].
Qed.

(** X3.  After a successful history call the resolver has made that call
    with the caller's query, then one search per batch and one detail call
    per reference returned, and nothing else.  No search or detail query
    carries the caller's property list or component type, a search carries
    no entity id, each has exactly one external-id filter, and the rest of
    the caller's query is passed on unchanged. *)
Theorem one_search_per_batch_one_detail_per_reference
    q st log output st0 prs notices err st' log' :
  GetPropertyValueHistory (client s) q st = ((Some output, None), st0) ->
  GetComponentHistoryWithLookup s q (st, log)
  = Returned ((prs, notices, err), (st', log')) ->
  exists calls,
    log' = (log ++ CallGetPropertyValueHistory q :: calls)%list /\
    Forall (lookupCall (TwinMakerQuery.Rest q)) calls /\
    length (List.filter isSearch calls)
    = length (GetPropertyValueHistoryOutput.PropertyValues output) /\
    length (List.filter isDetail calls) = length prs.
Proof.
  intros Hhistory Hrun.
  destruct (resolver_returns_after_history _ _ _ _ _ _ _ _ _ _ Hhistory Hrun)
    as (calls & Hlog & _ & _ & _ & Hcalls & Hsearches & Hdetails & _).
  now exists calls.
Qed.

(** X4.  The error the resolver returns is the error of the history call
    and nothing else: a failed search or detail call never shows in it. *)
Theorem returned_error_is_the_history_error
    q st log result historyErr st0 prs notices err w' :
  GetPropertyValueHistory (client s) q st = ((result, historyErr), st0) ->
  GetComponentHistoryWithLookup s q (st, log) = Returned ((prs, notices, err), w') ->
  err = historyErr.
Proof.
  intros Hhistory Hrun. destruct w' as [st' log'].
  apply resolver_returns in Hrun
    as (result' & historyErr' & st1 & Hcall & -> & _).
  rewrite Hhistory in Hcall. now injection Hcall as _ <- _.
Qed.

(** X5.  A history output with a nil batch, or with a batch that has no
    entity property reference, makes the resolver panic, wherever in the
    output that batch stands and whatever the client answers. *)
Theorem batch_without_reference_panics q st log output st0 b :
  GetPropertyValueHistory (client s) q st = ((Some output, None), st0) ->
  In b (GetPropertyValueHistoryOutput.PropertyValues output) ->
  b = None \/
  (exists pv, b = Some pv /\
              PropertyValueHistory.EntityPropertyReference pv = None) ->
  GetComponentHistoryWithLookup s q (st, log) = Panicked.
Proof.
  intros Hhistory Hin Hbad.
  destruct (GetComponentHistoryWithLookup s q (st, log))
    as [[[[prs notices] err] [st' log']]|] eqn:Hrun; [| reflexivity].
  destruct (resolver_returns_after_history _ _ _ _ _ _ _ _ _ _ Hhistory Hrun)
    as (calls & _ & _ & _ & _ & _ & _ & _ & Hbatches).
  rewrite Forall_forall in Hbatches.
  destruct (Hbatches b Hin) as (pv & ref & -> & Href).
  destruct Hbad as [Hnil | (pv' & [= <-] & Hnone)]; [discriminate Hnil |].
  rewrite Href in Hnone. discriminate Hnone.
Qed.

(** X6.  A detail call that fails but hands back an output is treated
    like a success apart from its notice: the warning with the error's
    message is recorded and the output is scanned all the same.  If the
    scan returns a name, a reference with that name is appended and the
    loop goes on with the remaining batches; if the scan meets a nil
    pointer, the loop panics. *)
Theorem failed_detail_with_output_still_appends componentTypeId pv ref
    externalId l st log le summary others entityId st1 e err st2 rest :
  PropertyValueHistory.EntityPropertyReference pv = Some ref ->
  extractExternalId (EntityPropertyReference.ExternalIdProperty ref)
  = Returned externalId ->
  ListEntities (client s) (listEntitiesQuery (query l) externalId) st
  = ((Some le, None), st1) ->
  ListEntitiesOutput.EntitySummaries le = Some summary :: others ->
  EntitySummary.EntityId summary = Some entityId ->
  GetEntity (client s)
    (withEntityId (listEntitiesQuery (query l) externalId) entityId) st1
  = ((Some e, Some err), st2) ->
  rangeM (lookupBody s componentTypeId) (Some pv :: rest) l (st, log)
  = match scanComponents componentTypeId externalId
            (GetEntityOutput.Components e) with
    | Returned name =>
        rangeM (lookupBody s componentTypeId) rest
          (Locals
             (withEntityId (listEntitiesQuery (query l) externalId) entityId)
             (propertyReferences l ++
                [PropertyReference.Build
                   (PropertyValueHistory.Values pv)
                   (Some (EntityPropertyReference.Build
                            (Some name) (Some entityId)
                            (EntityPropertyReference.ExternalIdProperty ref)
                            (EntityPropertyReference.PropertyName ref)))
                   (EntitySummary.EntityName summary)])%list
             (failures l
                ++ [Notice.Build Notice.NoticeSeverityWarning (Error err)])%list)
          (st2,
           (log ++ [CallListEntities (listEntitiesQuery (query l) externalId)]
                ++ [CallGetEntity
                      (withEntityId (listEntitiesQuery (query l) externalId)
                         entityId)])%list)
    | Panicked => Panicked
    end.
Proof.
  intros Href Hext Hsearch Hsummaries Hid Hdetail.
  destruct (scanComponents componentTypeId externalId
              (GetEntityOutput.Components e)) as [name|] eqn:Hscan.
  - apply rangeM_cons.
    apply (lookupBody_appends s _ _ _ _ _ _ _ _ None _ _ _ _ _ (Some err) _ _
             Href Hext Hsearch Hsummaries Hid Hdetail Hscan).
  - apply rangeM_Panicked. unfold lookupBody. run. rewrite Hsummaries. run.
    apply bindM_Panicked. now rewrite Hscan.
Qed.

(** X7.  A detail call that returns a nil output, with or without an
    error, makes the loop panic at that batch: the references and notices
    collected so far are lost and the remaining batches are not looked
    up. *)
Theorem detail_without_output_panics componentTypeId pv ref
    externalId l st log le searchErr summary others entityId st1 detailErr st2 rest :
  PropertyValueHistory.EntityPropertyReference pv = Some ref ->
  extractExternalId (EntityPropertyReference.ExternalIdProperty ref)
  = Returned externalId ->
  ListEntities (client s) (listEntitiesQuery (query l) externalId) st
  = ((Some le, searchErr), st1) ->
  ListEntitiesOutput.EntitySummaries le = Some summary :: others ->
  EntitySummary.EntityId summary = Some entityId ->
  GetEntity (client s)
    (withEntityId (listEntitiesQuery (query l) externalId) entityId) st1
  = ((None, detailErr), st2) ->
  rangeM (lookupBody s componentTypeId) (Some pv :: rest) l (st, log) = Panicked.
Proof.
  intros Href Hext Hsearch Hsummaries Hid Hdetail.
  apply rangeM_Panicked. unfold lookupBody. run. rewrite Hsummaries. run.
  reflexivity.
Qed.

End LoopInvariants.

(** ** The component scan and the order of Go's maps *)

(** X8.  A non-empty component name returned by the scan is never made
    up: the response holds a component of the queried type with that name,
    one of whose properties is flagged as external id and has the batch's
    external id as string value.  This holds for any response, nil
    pointers or not, on which the scan returns. *)
Theorem scanned_name_names_a_matching_component
    componentTypeId externalId components name :
  scanComponents componentTypeId externalId components = Returned name ->
  name <> "" ->
  exists key component propertyKey property definition value,
    In (key, Some component) components /\
    ComponentResponse.ComponentTypeId component = Some componentTypeId /\
    ComponentResponse.ComponentName component = Some name /\
    In (propertyKey, Some property) (ComponentResponse.Properties component) /\
    PropertyResponse.Definition_ property = Some definition /\
    PropertyDefinitionResponse.IsExternalId definition = Some true /\
    PropertyResponse.Value property = Some value /\
    DataValue.StringValue value = Some externalId.
Proof.
  intros Hscan Hname. apply scanComponents_returns in Hscan.
  unfold componentNameSpec in Hscan.
  destruct (List.find (hasType componentTypeId) components)
    as [[key [component|]]|] eqn:Hfind; try (now subst name).
  apply List.find_some in Hfind as [Hin Htype].
  destruct (List.existsb (carriesExternalId externalId)
              (ComponentResponse.Properties component)) eqn:Hcarries;
    [| now subst name].
  apply List.existsb_exists in Hcarries as ([propertyKey property] & Hpin & Hp).
  unfold hasType in Htype. unfold carriesExternalId in Hp. simpl in Htype, Hp.
  destruct (ComponentResponse.ComponentTypeId component) as [typeId|] eqn:Etype;
    [| discriminate Htype].
  apply String.eqb_eq in Htype as ->.
  destruct (ComponentResponse.ComponentName component) as [n|] eqn:Ename;
    [| now subst name].
  subst n.
  destruct property as [property|]; [| discriminate Hp].
  destruct (PropertyResponse.Definition_ property) as [definition|] eqn:Edef;
    [| discriminate Hp].
  destruct (PropertyResponse.Value property) as [value|] eqn:Evalue;
    [| discriminate Hp].
  destruct (PropertyDefinitionResponse.IsExternalId definition) as [[|]|] eqn:Eflag;
    try discriminate Hp.
  destruct (DataValue.StringValue value) as [stringValue|] eqn:Estring;
    [| discriminate Hp].
  apply String.eqb_eq in Hp as ->.
  exists key, component, propertyKey, property, definition, value.
  now repeat split.
Qed.

(** X9.  The first component of the queried type decides: what the map
    yields after it is never read, so components that follow it change
    neither the name returned nor whether the scan panics. *)
Theorem components_after_first_of_type_are_ignored
    componentTypeId externalId before key component after after' :
  ComponentResponse.ComponentTypeId component = Some componentTypeId ->
  scanComponents componentTypeId externalId
    (before ++ (key, Some component) :: after)%list
  = scanComponents componentTypeId externalId
      (before ++ (key, Some component) :: after')%list.
Proof.
  intros Htype. unfold scanComponents. generalize "" as current.
  induction before as [|[k c] before IH]; intros current; simpl.
  - rewrite Htype. simpl. rewrite String.eqb_refl.
    now destruct (scanProperties externalId component
                    (ComponentResponse.Properties component) current).
  - destruct c as [c|]; [| reflexivity]. simpl.
    destruct (ComponentResponse.ComponentTypeId c) as [typeId|]; [| reflexivity].
    simpl. destruct (typeId =? componentTypeId); [| apply IH].
    now destruct (scanProperties externalId c
                    (ComponentResponse.Properties c) current).
Qed.

Lemma existsb_Permutation {A} (f : A -> bool) (l l' : list A) :
  Permutation l l' -> List.existsb f l = List.existsb f l'.
Proof.
  induction 1 as [| x l l' _ IH | x y l | l l' l'' _ IH1 _ IH2]; simpl.
  - reflexivity.
  - now rewrite IH.
  - now destruct (f x), (f y).
  - now rewrite IH1.
Qed.

Lemma forallb_Permutation {A} (f : A -> bool) (l l' : list A) :
  Permutation l l' -> List.forallb f l = List.forallb f l'.
Proof.
  induction 1 as [| x l l' _ IH | x y l | l l' l'' _ IH1 _ IH2]; simpl.
  - reflexivity.
  - now rewrite IH.
  - now destruct (f x), (f y).
  - now rewrite IH1.
Qed.

Lemma filter_Permutation {A} (f : A -> bool) (l l' : list A) :
  Permutation l l' -> Permutation (List.filter f l) (List.filter f l').
Proof.
  induction 1 as [| x l l' _ IH | x y l | l l' l'' _ IH1 _ IH2]; simpl.
  - constructor.
  - destruct (f x); [now constructor | assumption].
  - destruct (f x), (f y); try reflexivity. constructor.
  - now transitivity (List.filter f l').
Qed.

Lemma find_filter {A} (f : A -> bool) (l : list A) :
  List.find f l = List.hd_error (List.filter f l).
Proof.
  induction l as [|x l IH]; simpl; [reflexivity |].
  now destruct (f x).
Qed.

(** With at most one match, every order of the list finds it. *)
Lemma find_Permutation {A} (f : A -> bool) (l l' : list A) :
  Permutation l l' ->
  length (List.filter f l) <= 1 ->
  List.find f l = List.find f l'.
Proof.
  intros Hperm Hone. rewrite !find_filter.
  apply (filter_Permutation f) in Hperm.
  destruct (List.filter f l) as [|x [|y rest]]; simpl in Hone.
  - now apply Permutation_nil in Hperm as ->.
  - now apply Permutation_length_1_inv in Hperm as ->.
  - lia.
Qed.

Lemma sameComponent_hasType componentTypeId a b :
  sameComponent a b -> hasType componentTypeId a = hasType componentTypeId b.
Proof.
  unfold sameComponent, hasType. intros [_ H].
  destruct (snd a) as [c|], (snd b) as [d|]; try contradiction; [| reflexivity].
  destruct H as (_ & -> & _). reflexivity.
Qed.

Lemma sameComponent_readable a b :
  sameComponent a b -> readableComponent a = readableComponent b.
Proof.
  unfold sameComponent, readableComponent. intros [_ H].
  destruct (snd a) as [c|], (snd b) as [d|]; try contradiction; [| reflexivity].
  destruct H as (-> & -> & Hperm).
  now rewrite (forallb_Permutation readableProperty _ _ Hperm).
Qed.

Lemma sameComponents_spec componentTypeId externalId components components' :
  Forall2 sameComponent components components' ->
  componentNameSpec componentTypeId externalId components
  = componentNameSpec componentTypeId externalId components' /\
  List.forallb readableComponent components
  = List.forallb readableComponent components' /\
  length (List.filter (hasType componentTypeId) components)
  = length (List.filter (hasType componentTypeId) components').
Proof.
  unfold componentNameSpec.
  induction 1 as [| a b l l' Hab _ (IHname & IHread & IHlen)]; simpl.
  - now repeat split.
  - rewrite <- (sameComponent_hasType componentTypeId a b Hab),
      <- (sameComponent_readable a b Hab), IHread.
    destruct (hasType componentTypeId a) eqn:Htype; simpl.
    + repeat split; [| now rewrite IHlen].
      destruct a as [ka [c|]], b as [kb [d|]];
        destruct Hab as [_ Hab]; simpl in Hab; try contradiction;
        [| reflexivity].
      destruct Hab as (-> & _ & Hperm).
      now rewrite (existsb_Permutation _ _ _ Hperm).
    + now repeat split.
Qed.

(** X10.  For a detail response whose pointers are set and in which at
    most one component has the queried type, the name the scan returns
    does not depend on the order in which Go's maps yield the components,
    nor on the order in which they yield each component's properties. *)
Theorem scan_is_independent_of_map_order
    componentTypeId externalId components reordered shuffled :
  List.forallb readableComponent components = true ->
  length (List.filter (hasType componentTypeId) components) <= 1 ->
  Forall2 sameComponent components reordered ->
  Permutation reordered shuffled ->
  scanComponents componentTypeId externalId shuffled
  = scanComponents componentTypeId externalId components.
Proof.
  intros Hreadable Hone Hsame Hperm.
  destruct (sameComponents_spec componentTypeId externalId _ _ Hsame)
    as (Hname & Hread & Hlen).
  rewrite (scanComponents_readable _ _ components Hreadable).
  rewrite scanComponents_readable.
  - f_equal. rewrite Hname. unfold componentNameSpec.
    now rewrite <- (find_Permutation _ _ _ Hperm) by lia.
  - now rewrite <- (forallb_Permutation _ _ _ Hperm), <- Hread.
Qed.

(** Two components of the queried type: the order decides. *)
Example scan_order_matters_with_two_of_a_type :
  scanComponents "t" "x" [sensor "a" "t" "x"; sensor "b" "t" "x"] = Returned "a" /\
  scanComponents "t" "x" [sensor "b" "t" "x"; sensor "a" "t" "x"] = Returned "b".
Proof. split; reflexivity. Qed.

(** ** The composite key at its edges *)

Lemma append_nil_r (a : string) : a ++ "" = a.
Proof. induction a as [|ch a IH]; simpl; [reflexivity | now rewrite IH]. Qed.

(** The key of any reference whose external id can be read. *)
Lemma key_shape (r : EntityPropertyReference.t) (externalId : string) :
  extractExternalId (EntityPropertyReference.ExternalIdProperty r)
  = Returned externalId ->
  GetEntityPropertyReferenceKey (Some r)
  = Returned (segment (EntityPropertyReference.EntityId r)
              ++ segment (EntityPropertyReference.ComponentName r)
              ++ externalId ++ "_"
              ++ nameOr "" (EntityPropertyReference.PropertyName r)).
Proof.
  intros Hext. unfold GetEntityPropertyReferenceKey. simpl. rewrite Hext. simpl.
  destruct (EntityPropertyReference.EntityId r),
    (EntityPropertyReference.ComponentName r),
    (EntityPropertyReference.PropertyName r); simpl;
    rewrite ?append_assoc, ?append_nil_r; reflexivity.
Qed.

(** X11.  The key function panics exactly when the reference is nil or
    when the first entry its mapping yields has a nil value; nil entity
    id, component name or property name never make it panic. *)
Theorem key_panics_exactly_on_nil_reference_or_value
    (entityPropertyReference : option EntityPropertyReference.t) :
  GetEntityPropertyReferenceKey entityPropertyReference = Panicked <->
  entityPropertyReference = None \/
  exists r key rest,
    entityPropertyReference = Some r /\
    EntityPropertyReference.ExternalIdProperty r = (key, None) :: rest.
Proof.
  split.
  - destruct entityPropertyReference as [r|]; [| now left]. intros H. right.
    destruct (EntityPropertyReference.ExternalIdProperty r)
      as [|[key [value|]] rest] eqn:Hmap.
    + rewrite (key_shape r "") in H; [discriminate H | now rewrite Hmap].
    + rewrite (key_shape r value) in H; [discriminate H |].
      now rewrite Hmap, extractExternalId_cons.
    + now exists r, key, rest.
  - intros [-> | (r & key & rest & -> & Hmap)]; [reflexivity |].
    unfold GetEntityPropertyReferenceKey. simpl.
    now rewrite Hmap, extractExternalId_cons.
Qed.

(** X12.  The key does not record which fields were absent: a reference
    with only a component name and one with the same text as entity id and
    no component name get the same key, and so do a nil and an empty
    property name. *)
Theorem key_does_not_mark_absent_fields
    (text : string) (name entityId componentName : option string)
    (mapping : Go.map (option string)) :
  GetEntityPropertyReferenceKey
    (Some (EntityPropertyReference.Build (Some text) None mapping name))
  = GetEntityPropertyReferenceKey
      (Some (EntityPropertyReference.Build None (Some text) mapping name)) /\
  GetEntityPropertyReferenceKey
    (Some (EntityPropertyReference.Build componentName entityId mapping None))
  = GetEntityPropertyReferenceKey
      (Some (EntityPropertyReference.Build componentName entityId mapping (Some ""))).
Proof.
  unfold GetEntityPropertyReferenceKey. simpl.
  destruct (extractExternalId mapping) as [externalId|]; simpl;
    [| now split].
  split; [reflexivity |].
  now rewrite append_nil_r.
Qed.

(** X13.  When the mapping holds two entries with different values, the
    key depends on which of them Go's map iteration yields first: the two
    orders give different keys for the same reference. *)
Theorem key_depends_on_map_order
    (componentName entityId propertyName : option string)
    (key1 key2 value1 value2 : string) (rest : Go.map (option string)) :
  value1 <> value2 ->
  GetEntityPropertyReferenceKey
    (Some (EntityPropertyReference.Build componentName entityId
             ((key1, Some value1) :: (key2, Some value2) :: rest) propertyName))
  <> GetEntityPropertyReferenceKey
       (Some (EntityPropertyReference.Build componentName entityId
                ((key2, Some value2) :: (key1, Some value1) :: rest) propertyName)).
Proof.
  intros Hdiff.
  rewrite (key_shape _ value1), (key_shape _ value2)
    by apply extractExternalId_cons.
  cbn [EntityPropertyReference.EntityId EntityPropertyReference.ComponentName
       EntityPropertyReference.PropertyName].
  intros H. injection H as H.
  do 2 apply append_cancel_prefix in H.
  apply append_cancel_suffix in H. now apply Hdiff.
Qed.

Lemma key_depends_on_map_order_witness :
  GetEntityPropertyReferenceKey
    (Some (EntityPropertyReference.Build (Some "comp") (Some "ent")
             [("alarm_key", Some "x1"); ("asset_key", Some "x2")] (Some "prop")))
  <> GetEntityPropertyReferenceKey
       (Some (EntityPropertyReference.Build (Some "comp") (Some "ent")
                [("asset_key", Some "x2"); ("alarm_key", Some "x1")] (Some "prop"))).
Proof.
  apply (key_depends_on_map_order (Some "comp") (Some "ent") (Some "prop")
           "alarm_key" "asset_key" "x1" "x2" []).
  discriminate.
Defined.

(** ** URL detection and data links *)

Lemma prefix_spec (p s : string) :
  String.prefix p s = true <-> exists rest, s = p ++ rest.
Proof.
  revert s. induction p as [|a p IH]; intros s.
  - split; [intros _; now exists s | now destruct s].
  - destruct s as [|b s]; simpl.
    + split; [discriminate | intros [rest H]; discriminate H].
    + destruct (ascii_dec a b) as [-> | Hneq].
      * rewrite IH. split; intros [rest H]; exists rest.
        -- now rewrite H.
        -- now injection H.
      * split; [discriminate |]. intros [rest H]. injection H as H _.
        now contradiction Hneq.
Qed.

Lemma Contains_unfold (s substr : string) :
  Contains s substr
  = String.prefix substr s
    || match s with
       | EmptyString => false
       | String _ rest => Contains rest substr
       end.
Proof. now destruct s. Qed.

(** [Contains] is the substring test. *)
Lemma Contains_spec (s substr : string) :
  Contains s substr = true <-> exists before after, s = before ++ substr ++ after.
Proof.
  split.
  - induction s as [|c s IH]; rewrite Contains_unfold; intros H.
    + rewrite orb_false_r in H. apply prefix_spec in H as [rest H].
      now exists "", rest.
    + apply orb_prop in H as [H | H].
      * apply prefix_spec in H as [rest H]. now exists "", rest.
      * destruct (IH H) as (before & after & ->).
        now exists (String c before), after.
  - intros (before & after & ->).
    induction before as [|c before IH]; rewrite Contains_unfold.
    + assert (H : String.prefix substr (substr ++ after) = true)
        by (apply prefix_spec; now exists after).
      change ("" ++ substr ++ after) with (substr ++ after). now rewrite H.
    + change (String c before ++ substr ++ after)
        with (String c (before ++ substr ++ after)).
      cbv beta iota. rewrite IH. apply orb_true_r.
Qed.

(** X14.  [checkForUrl] returns true exactly when the convertor yields a
    string pointer and the string value of the data value itself contains
    the text [://]; the string the convertor points to is not looked at. *)
Theorem checkForUrl_true_iff {O} (v : option DataValue.t)
    (convertor : option DataValue.t -> any O) :
  checkForUrl v convertor = Returned true <->
  exists converted value text before after,
    convertor v = StringPointer converted /\
    v = Some value /\
    DataValue.StringValue value = Some text /\
    text = before ++ "://" ++ after.
Proof.
  unfold checkForUrl. split.
  - destruct (convertor v) as [converted|other]; [| discriminate].
    destruct v as [value|]; [| discriminate]. simpl.
    destruct (DataValue.StringValue value) as [text|] eqn:Hvalue;
      [| discriminate].
    simpl. destruct (Contains text "://") eqn:Hcontains; [| discriminate].
    intros _. apply Contains_spec in Hcontains as (before & after & Htext).
    now exists converted, value, text, before, after.
  - intros (converted & value & text & before & after & -> & -> & Htext & Hsplit).
    simpl. rewrite Htext. simpl.
    assert (Hcontains : Contains text "://" = true)
      by (apply Contains_spec; now exists before, after).
    now rewrite Hcontains.
Qed.

(** X15.  [checkForUrl] panics exactly when the convertor yields a string
    pointer while the data value is nil or has no string value; when the
    convertor yields anything else, even a nil data value is safe. *)
Theorem checkForUrl_panics_iff {O} (v : option DataValue.t)
    (convertor : option DataValue.t -> any O) :
  checkForUrl v convertor = Panicked <->
  exists converted,
    convertor v = StringPointer converted /\
    (v = None \/
     exists value, v = Some value /\ DataValue.StringValue value = None).
Proof.
  unfold checkForUrl. split.
  - destruct (convertor v) as [converted|other]; [| discriminate].
    intros H. exists converted. split; [reflexivity |].
    destruct v as [value|]; [| now left]. right. exists value.
    split; [reflexivity |]. simpl in H.
    destruct (DataValue.StringValue value) as [text|] eqn:Hvalue;
      [| reflexivity].
    simpl in H. now destruct (Contains text "://").
  - intros (converted & -> & [-> | (value & -> & Hnone)]); [reflexivity |].
    simpl. now rewrite Hnone.
Qed.

(** X16.  [setUrlDatalink] replaces whatever configuration the field had:
    two fields that differ only in their configuration come out equal,
    with the one link to the value's text and the rest of the field
    untouched, and setting the link a second time changes nothing. *)
Theorem setUrlDatalink_replaces_the_configuration {C F} (zero : C)
    (field other : Field.t C F) :
  Field.Rest other = Field.Rest field ->
  setUrlDatalink zero (Some other) = setUrlDatalink zero (Some field) /\
  (exists result,
      setUrlDatalink zero (Some field) = Returned result /\
      Field.Rest result = Field.Rest field /\
      option_map FieldConfig.Links (Field.Config result)
      = Some [DataLink.Build "Link" "${__value.text}" true] /\
      setUrlDatalink zero (Some result) = Returned result).
Proof.
  intros Hrest. unfold setUrlDatalink. simpl. rewrite Hrest.
  split; [reflexivity |]. eexists. now repeat split.
Qed.

Lemma setUrlDatalink_replaces_the_configuration_witness :
  setUrlDatalink tt
    (Some (Field.Build
             (Some (FieldConfig.Build
                      [DataLink.Build "Docs" "https://example.com" false] tt))
             "temperature"))
  = setUrlDatalink tt (Some (Field.Build None "temperature")).
Proof.
  apply (setUrlDatalink_replaces_the_configuration tt
           (Field.Build None "temperature")
           (Field.Build
              (Some (FieldConfig.Build
                       [DataLink.Build "Docs" "https://example.com" false] tt))
              "temperature")).
  reflexivity.
Defined.

(** ** The policy document at its edges *)

Section PolicyEdges.

Variable Template : Type.
Variable Compact : string -> string + error.
Variable Parse : string -> Template + error.
Variable Execute : Template -> Go.map (option string) -> string * option error.

(** X17.  [LoadPolicy] panics exactly when the workspace is nil or the
    compacted template does not parse.  A workspace whose fields are nil,
    a compaction error and an execution error never make it panic. *)
Theorem LoadPolicy_panics_iff (workspace : option GetWorkspaceOutput.t) :
  LoadPolicy Template Compact Parse Execute workspace = Panicked <->
  workspace = None \/
  exists compacted err,
    Compact policyTemplate = inl compacted /\ Parse compacted = inr err.
Proof.
  unfold LoadPolicy. split.
  - destruct workspace as [w|]; [| now left]. intros H. right. simpl in H.
    destruct (Compact policyTemplate) as [compacted|err]; [| discriminate H].
    destruct (Parse compacted) as [t|err] eqn:Hparse.
    + simpl in H. now destruct (Execute t _) as [written [e|]].
    + now exists compacted, err.
  - intros [-> | (compacted & err & Hcompact & Hparse)]; [reflexivity |].
    destruct workspace as [w|]; [| reflexivity]. simpl.
    now rewrite Hcompact, Hparse.
Qed.

End PolicyEdges.

(** ** Concrete runs of the further properties *)

Lemma references_follow_batch_order_witness :
  inBatchOrder threeBatches
    (referencesOf (GetComponentHistoryWithLookup secondDetailFails sensorQuery (0, []))) /\
  length (referencesOf
            (GetComponentHistoryWithLookup secondDetailFails sensorQuery (0, [])))
  <= 3.
Proof.
  eapply (references_follow_batch_order secondDetailFails sensorQuery 0 []
            (GetPropertyValueHistoryOutput.Build threeBatches) 1);
    [reflexivity | vm_compute; reflexivity].
Defined.

Lemma notices_are_warnings_one_per_call_witness :
  Forall isWarning
    (noticesOf (GetComponentHistoryWithLookup secondDetailFails sensorQuery (0, []))) /\
  length (noticesOf
            (GetComponentHistoryWithLookup secondDetailFails sensorQuery (0, [])))
  <= 3 + length (referencesOf
                   (GetComponentHistoryWithLookup secondDetailFails sensorQuery
                      (0, []))) /\
  length (noticesOf
            (GetComponentHistoryWithLookup secondDetailFails sensorQuery (0, [])))
  <= 6.
Proof.
  eapply (notices_are_warnings_one_per_call secondDetailFails sensorQuery 0 []
            (GetPropertyValueHistoryOutput.Build threeBatches) 1);
    [reflexivity | vm_compute; reflexivity].
Defined.

Lemma one_search_per_batch_one_detail_per_reference_witness :
  exists calls,
    logOf (GetComponentHistoryWithLookup secondDetailFails sensorQuery (0, []))
    = ([] ++ CallGetPropertyValueHistory sensorQuery :: calls)%list /\
    Forall (lookupCall "workspace-1") calls /\
    length (List.filter isSearch calls) = 3 /\
    length (List.filter isDetail calls)
    = length (referencesOf
                (GetComponentHistoryWithLookup secondDetailFails sensorQuery
                   (0, []))).
Proof.
  eapply (one_search_per_batch_one_detail_per_reference secondDetailFails
            sensorQuery 0 [] (GetPropertyValueHistoryOutput.Build threeBatches) 1);
    [reflexivity | vm_compute; reflexivity].
Defined.

Lemma returned_error_is_the_history_error_witness :
  errorOf (GetComponentHistoryWithLookup noHistory sensorQuery (0, []))
  = Some historyFailed.
Proof.
  eapply (returned_error_is_the_history_error noHistory sensorQuery 0 []
            None (Some historyFailed) 1);
    [reflexivity | vm_compute; reflexivity].
Defined.

Lemma batch_without_reference_panics_witness :
  GetComponentHistoryWithLookup nilBatch sensorQuery (0, []) = Panicked.
Proof.
  apply (batch_without_reference_panics nilBatch sensorQuery 0 []
           (GetPropertyValueHistoryOutput.Build
              [batch "x1" "temperature" "1"; None])
           1 None).
  - reflexivity.
  - simpl. right. left. reflexivity.
  - left. reflexivity.
Defined.

Lemma failed_detail_with_output_still_appends_witness :
  rangeM (lookupBody secondDetailFails "com.example.sensor")
    [Some secondBatch; batch "x3" "temperature" "3"]
    (Locals sensorQuery [] []) (2, [])
  = rangeM (lookupBody secondDetailFails "com.example.sensor")
      [batch "x3" "temperature" "3"]
      (Locals (withEntityId (listEntitiesQuery sensorQuery "x2") "x2")
         [PropertyReference.Build [Some "2"]
            (Some (EntityPropertyReference.Build (Some "tempSensor") (Some "x2")
                     [("alarm_key", Some "x2")] (Some "temperature")))
            (Some "Boiler")]
         [Notice.Build Notice.NoticeSeverityWarning "GetEntity: throttled"])
      (4, [CallListEntities (listEntitiesQuery sensorQuery "x2");
           CallGetEntity (withEntityId (listEntitiesQuery sensorQuery "x2") "x2")]).
Proof.
  exact (failed_detail_with_output_still_appends secondDetailFails
           "com.example.sensor" secondBatch secondReference "x2"
           (Locals sensorQuery [] []) 2 []
           (ListEntitiesOutput.Build
              [Some (EntitySummary.Build (Some "x2") (Some "Boiler"))])
           (EntitySummary.Build (Some "x2") (Some "Boiler")) [] "x2" 3
           (GetEntityOutput.Build [sensor "tempSensor" "com.example.sensor" "x2"])
           detailFailed 4 [batch "x3" "temperature" "3"]
           eq_refl eq_refl eq_refl eq_refl eq_refl eq_refl).
Defined.

Lemma detail_without_output_panics_witness :
  rangeM (lookupBody secondDetailEmpty "com.example.sensor")
    [Some secondBatch; batch "x3" "temperature" "3"]
    (Locals sensorQuery [] []) (2, [])
  = Panicked.
Proof.
  exact (detail_without_output_panics secondDetailEmpty
           "com.example.sensor" secondBatch secondReference "x2"
           (Locals sensorQuery [] []) 2 []
           (ListEntitiesOutput.Build
              [Some (EntitySummary.Build (Some "x2") (Some "Boiler"))])
           None (EntitySummary.Build (Some "x2") (Some "Boiler")) [] "x2" 3
           (Some detailFailed) 4 [batch "x3" "temperature" "3"]
           eq_refl eq_refl eq_refl eq_refl eq_refl eq_refl).
Defined.

Lemma scanned_name_names_a_matching_component_witness :
  exists key component propertyKey property definition value,
    In (key, Some component) [sensor "tempSensor" "com.example.sensor" "ext-42"] /\
    ComponentResponse.ComponentTypeId component = Some "com.example.sensor" /\
    ComponentResponse.ComponentName component = Some "tempSensor" /\
    In (propertyKey, Some property) (ComponentResponse.Properties component) /\
    PropertyResponse.Definition_ property = Some definition /\
    PropertyDefinitionResponse.IsExternalId definition = Some true /\
    PropertyResponse.Value property = Some value /\
    DataValue.StringValue value = Some "ext-42".
Proof.
  apply (scanned_name_names_a_matching_component "com.example.sensor" "ext-42"
           [sensor "tempSensor" "com.example.sensor" "ext-42"] "tempSensor").
  - reflexivity.
  - discriminate.
Defined.

Lemma components_after_first_of_type_are_ignored_witness :
  scanComponents "com.example.sensor" "ext-42"
    [sensor "pump" "com.example.pump" "ext-42";
     sensor "tempSensor" "com.example.sensor" "ext-42";
     ("broken", None)]
  = scanComponents "com.example.sensor" "ext-42"
      [sensor "pump" "com.example.pump" "ext-42";
       sensor "tempSensor" "com.example.sensor" "ext-42"].
Proof.
  exact (components_after_first_of_type_are_ignored
           "com.example.sensor" "ext-42"
           [sensor "pump" "com.example.pump" "ext-42"] "tempSensor"
           (ComponentResponse.Build (Some "tempSensor") (Some "com.example.sensor")
              [("alarm_key",
                Some (PropertyResponse.Build
                        (Some (PropertyDefinitionResponse.Build (Some true)))
                        (Some (DataValue.Build (Some "ext-42")))))])
           [("broken", None)] [] eq_refl).
Defined.

Lemma scan_is_independent_of_map_order_witness :
  scanComponents "com.example.sensor" "ext-42"
    [sensor "tempSensor" "com.example.sensor" "ext-42";
     sensor "pump" "com.example.pump" "ext-42"]
  = scanComponents "com.example.sensor" "ext-42"
      [sensor "pump" "com.example.pump" "ext-42";
       sensor "tempSensor" "com.example.sensor" "ext-42"].
Proof.
  apply (scan_is_independent_of_map_order "com.example.sensor" "ext-42"
           [sensor "pump" "com.example.pump" "ext-42";
            sensor "tempSensor" "com.example.sensor" "ext-42"]
           [sensor "pump" "com.example.pump" "ext-42";
            sensor "tempSensor" "com.example.sensor" "ext-42"]).
  - reflexivity.
  - simpl. lia.
  - repeat constructor.
  - apply perm_swap.
Defined.

Example checkForUrl_examples :
  checkForUrl (O := bool) (Some (DataValue.Build (Some "https://grafana.com")))
    (fun v => StringPointer (Some "ignored"))
  = Returned true /\
  checkForUrl (O := bool) (Some (DataValue.Build (Some "21.5")))
    (fun v => StringPointer (Some "https://grafana.com"))
  = Returned false /\
  checkForUrl (O := bool) None (fun v => OtherValue true) = Returned false /\
  checkForUrl (O := bool) (Some (DataValue.Build None))
    (fun v => StringPointer (Some "https://grafana.com"))
  = Panicked.
Proof. repeat split. Qed.

(** A failed detail call whose output holds a flagged property without a
    value: the scan panics, and with it the resolver. *)
Example failed_detail_with_unreadable_output_panics :
  GetComponentHistoryWithLookup flaggedWithoutValueFailing sensorQuery (0, [])
  = Panicked.
Proof. reflexivity. Qed.
